(** * Real-estate listings: image pipeline and listing creation

    A shallow embedding of the server routes
    [src/app/api/upload/route.ts], [src/app/api/image/[id]/route.ts],
    [src/app/api/properties/route.ts], of [src/utils/db.ts],
    [src/models/Property.ts] and of the submit handler of the home page,
    followed by the properties proved about them.

    Conventions.  Byte counts and epoch milliseconds are exact integers
    ([Z]); coordinates and the numeric form fields are IEEE doubles
    ([float]); a JavaScript object used as a dictionary is a [gmap] from
    property names to values; [await]ed calls that may reject return an
    [Outcome]. *)

From Stdlib Require Import ZArith NArith List Ascii String Bool Lia.
From Stdlib Require Import Strings.Byte PrimFloat Permutation Sorted DecimalString.
From stdpp Require Import gmap strings.

Local Open Scope string_scope.
Local Open Scope Z_scope.

(* A decimal literal denotes the nearest double, as it does in JavaScript. *)
Set Warnings "-inexact-float".

(** ** JavaScript values and control *)

Module JS.

(** The values that end up in stored metadata and in response headers. *)
Inductive Value :=
| Null
| Bool (b : bool)
| Num (z : Z)
| Str (s : string)
| Date (ms : Z).

(** [ToBoolean]. *)
Definition truthy (v : Value) : bool :=
  match v with
  | Null => false
  | Bool b => b
  | Num z => negb (z =? 0)
  | Str s => negb (String.eqb s "")
  | Date _ => true
  end.

(** [o.k] on an object: [undefined] is [None]. *)
Definition truthy_opt (v : option Value) : bool :=
  match v with
  | Some v => truthy v
  | None => false
  end.

(** [v || d]. *)
Definition or_else (v : option Value) (d : Value) : Value :=
  match v with
  | Some x => if truthy x then x else d
  | None => d
  end.

(** The result of an [await]: a value, or a thrown error. *)
Inductive Outcome (A : Type) :=
| Ok (a : A)
| Throw (msg : string).
Arguments Ok {A} a.
Arguments Throw {A} msg.

(** [String(n)] for an integer. *)
Definition string_of_Z (z : Z) : string :=
  NilZero.string_of_int (Z.to_int z).

(** [s.startsWith(p)]. *)
Fixpoint startsWith (p s : string) : bool :=
  match p with
  | EmptyString => true
  | String a p' =>
      match s with
      | EmptyString => false
      | String b s' => Ascii.eqb a b && startsWith p' s'
      end
  end.

(** White space removed by [String.prototype.trim], on ASCII text. *)
Definition is_space (c : ascii) : bool :=
  let n := N_of_ascii c in
  ((9 <=? n) && (n <=? 13) || (n =? 32))%N.

Fixpoint trimStart (s : string) : string :=
  match s with
  | EmptyString => EmptyString
  | String c s' => if is_space c then trimStart s' else s
  end.

Fixpoint trimEnd (s : string) : string :=
  match s with
  | EmptyString => EmptyString
  | String c s' =>
      match trimEnd s' with
      | EmptyString => if is_space c then EmptyString else String c EmptyString
      | t => String c t
      end
  end.

Definition trim (s : string) : string := trimEnd (trimStart s).

(** Truthiness of a string. *)
Definition nonempty (s : string) : bool := negb (String.eqb s "").

(** [x === 0] on doubles: IEEE equality, so [-0 === 0] and [NaN !== 0]. *)
Definition is_zero (x : float) : bool := PrimFloat.eqb x 0%float.

End JS.


(** ** Object identifiers *)

Module ObjectId.

(** A BSON object id is twelve bytes: a number below [2^96]. *)
Definition t := N.

Definition hex_digit (c : ascii) : option N :=
  let n := N_of_ascii c in
  (if (48 <=? n) && (n <=? 57) then Some (n - 48)
   else if (97 <=? n) && (n <=? 102) then Some (n - 87)
   else if (65 <=? n) && (n <=? 70) then Some (n - 55)
   else None)%N.

Definition hex_char (d : N) : ascii :=
  (if d <? 10 then ascii_of_N (48 + d) else ascii_of_N (87 + d))%N.

Fixpoint parse_hex (s : string) (acc : N) : option N :=
  match s with
  | EmptyString => Some acc
  | String c s' =>
      match hex_digit c with
      | Some d => parse_hex s' (acc * 16 + d)%N
      | None => None
      end
  end.

(** [new ObjectId(s)] on a string: accepted exactly when [s] is 24
    hexadecimal characters, and throws otherwise. *)
Definition of_string (s : string) : option t :=
  if Nat.eqb (String.length s) 24 then parse_hex s 0%N else None.

Fixpoint hex_digits (k : nat) (n : N) (rest : string) : string :=
  match k with
  | O => rest
  | S k' => hex_digits k' (n / 16)%N (String (hex_char (n mod 16)%N) rest)
  end.

(** [id.toString()]: 24 lower-case hexadecimal characters. *)
Definition toString (id : t) : string := hex_digits 24 id EmptyString.

End ObjectId.

(** ** The chunked object store (GridFS) and zlib *)

(** [createGzip] and [createGunzip] applied to a whole payload.  Inflating
    what deflate produced gives the payload back; inflating anything else
    may fail. *)
Class Zlib := {
  gzip : list byte -> list byte;
  gunzip : list byte -> option (list byte);
  gunzip_gzip : forall b, gunzip (gzip b) = Some b
}.

Module GridFS.

(** A document of [fs.files] together with the bytes of its chunks. *)
Record StoredFile := {
  filename : string;
  contentType : option string;
  metadata : option (gmap string JS.Value);
  data : list byte
}.

(** The bucket: stored files by identifier. *)
Abbreviation Bucket := (gmap ObjectId.t StoredFile).

(** What reading a download stream to its end yields. *)
Inductive Stream :=
| Bytes (b : list byte)
| StreamError.

(** [bucket.openDownloadStream(id)]: no I/O happens at the call, so it
    never throws; an unknown [id] shows only when the stream is read. *)
Definition openDownloadStream (bk : Bucket) (id : ObjectId.t) : Stream :=
  match bk !! id with
  | Some f => Bytes (data f)
  | None => StreamError
  end.

(** [stream.pipe(createGunzip())]. *)
Definition pipe_gunzip `{Zlib} (s : Stream) : Stream :=
  match s with
  | Bytes b => match gunzip b with Some b' => Bytes b' | None => StreamError end
  | StreamError => StreamError
  end.

(** [db.collection("fs.files").findOne({_id: id})]. *)
Definition findOne (bk : Bucket) (id : ObjectId.t) : option StoredFile :=
  bk !! id.

End GridFS.

(** ** POST /api/upload *)

Module Upload.

Record File := {
  name : string;
  type : string;
  content : list byte
}.

(** [file.size], which is also [buffer.length]. *)
Definition size (f : File) : Z := Z.of_nat (List.length (content f)).

(** The request: [req.formData()] may reject; [formData.get("file")] may
    be absent or a file; and it is a string when the field [file] of the
    form is a text field, which the cast [as File] of the handler does not
    check. *)
Inductive Request :=
| Malformed
| Form (file : option File)
| TextField (value : string).

(** How the race between the upload stream and the 30 s timer ends. *)
Inductive Race :=
| Finish
| Error
| Timeout.

(** What the environment decides for one request. *)
Record Env := {
  now : Z;
  fresh : ObjectId.t;
  race : Race
}.

(** The two shapes of [NextResponse.json]: [{ fileId }] with the default
    status, and [{ error }] with an explicit 400 or 500. *)
Inductive ErrorStatus :=
| BadRequest
| InternalServerError.

Inductive Response :=
| FileId (fileId : string)
| Failed (error : string) (code : ErrorStatus).

Definition status (r : Response) : Z :=
  match r with
  | FileId _ => 200
  | Failed _ BadRequest => 400
  | Failed _ InternalServerError => 500
  end.

(** [res.ok]. *)
Definition ok (r : Response) : bool := (200 <=? status r) && (status r <=? 299).

Definition maxSize : Z := 5 * 1024 * 1024.

Definition shouldCompress (f : File) : bool := size f >? 1024 * 1024.

(** The options passed to [bucket.openUploadStream]. *)
Definition uploadMetadata (e : Env) (f : File) : gmap string JS.Value :=
  {[ "uploadedAt" := JS.Date (now e);
     "originalName" := JS.Str (name f);
     "size" := JS.Num (size f);
     "compressed" := JS.Bool (shouldCompress f) ]}.

Definition storedFile `{Zlib} (e : Env) (f : File) : GridFS.StoredFile :=
  {| GridFS.filename := name f;
     GridFS.contentType :=
       Some (if shouldCompress f then "application/gzip" else type f);
     GridFS.metadata := Some (uploadMetadata e f);
     GridFS.data := if shouldCompress f then gzip (content f) else content f |}.

(** The handler.  The bucket is observed when the response is produced:
    the [fs.files] document exists once the stream has finished. *)
Definition POST `{Zlib} (e : Env) (req : Request) (bk : GridFS.Bucket)
  : Response * GridFS.Bucket :=
  match req with
  | Malformed => (Failed "Upload failed" InternalServerError, bk)
  | Form None => (Failed "No file uploaded" BadRequest, bk)
  | TextField value =>
      (* the empty string is falsy; on any other string [file.size] is
         [undefined], the size test is false, [file.type] is [undefined]
         and [startsWith] throws *)
      if JS.nonempty value then (Failed "Upload failed" InternalServerError, bk)
      else (Failed "No file uploaded" BadRequest, bk)
  | Form (Some file) =>
      if size file >? maxSize then
        (Failed "File too large. Maximum size is 5MB" BadRequest, bk)
      else if negb (JS.startsWith "image/" (type file)) then
        (Failed "Only image files are allowed" BadRequest, bk)
      else
        match race e with
        | Finish =>
            (FileId (ObjectId.toString (fresh e)),
             <[fresh e := storedFile e file]> bk)
        | Error | Timeout =>
            (Failed "Upload failed" InternalServerError, bk)
        end
  end.

End Upload.

(** ** GET /api/image/[id] *)

Module Image.

Fixpoint take_segment (s : string) : string :=
  match s with
  | EmptyString => EmptyString
  | String c s' =>
      if Ascii.eqb c "/" then EmptyString else String c (take_segment s')
  end.

Fixpoint strip_prefix (p s : string) : option string :=
  match p with
  | EmptyString => Some s
  | String a p' =>
      match s with
      | EmptyString => None
      | String b s' => if Ascii.eqb a b then strip_prefix p' s' else None
      end
  end.

(** The regular expression at one start position: the literal, then one
    or more characters other than [/], as many as there are. *)
Definition match_here (s : string) : option string :=
  match strip_prefix "/api/image/" s with
  | Some rest =>
      match take_segment rest with
      | EmptyString => None
      | seg => Some seg
      end
  | None => None
  end.

(** [pathname.match(/\/api\/image\/([^\/]+)/)?.[1]]: the first start
    position, from the left, at which the expression matches. *)
Fixpoint idMatch (pathname : string) : option string :=
  match match_here pathname with
  | Some seg => Some seg
  | None =>
      match pathname with
      | EmptyString => None
      | String _ rest => idMatch rest
      end
  end.

Inductive Body :=
| Text (msg : string)
| Streamed (s : GridFS.Stream).

Record Response := {
  status : Z;
  headers : list (string * JS.Value);
  body : Body
}.

Definition header (k : string) (r : Response) : option JS.Value :=
  snd <$> List.find (fun kv => String.eqb (fst kv) k) (headers r).

Definition isCompressed (f : GridFS.StoredFile) : bool :=
  match GridFS.metadata f with
  | Some m => JS.truthy_opt (m !! "compressed")
  | None => false
  end.

(** The two assignments to [contentType] when a document was found. *)
Definition contentTypeOf (f : GridFS.StoredFile) : JS.Value :=
  let contentType :=
    if isCompressed f then JS.Str "application/gzip"
    else JS.or_else (JS.Str <$> GridFS.contentType f) (JS.Str "image/jpeg") in
  if isCompressed f then
    JS.or_else (GridFS.metadata f ≫= (.!! "originalContentType"))
               (JS.Str "image/jpeg")
  else contentType.

(** [storeUp] tells whether the database answers [findOne]; when it does
    not, the call rejects and the handler's [catch] answers. *)
Definition GET `{Zlib} (storeUp : bool) (pathname : string)
    (bk : GridFS.Bucket) : Response :=
  match idMatch pathname with
  | None => {| status := 400; headers := []; body := Text "Invalid image ID" |}
  | Some id =>
      match ObjectId.of_string id with
      | None =>
          (* [new ObjectId(id)] throws *)
          {| status := 404; headers := []; body := Text "Image not found" |}
      | Some oid =>
          let downloadStream := GridFS.openDownloadStream bk oid in
          if negb storeUp then
            {| status := 404; headers := []; body := Text "Image not found" |}
          else
            let fileDoc := GridFS.findOne bk oid in
            let finalStream :=
              match fileDoc with
              | Some f =>
                  if isCompressed f then GridFS.pipe_gunzip downloadStream
                  else downloadStream
              | None => downloadStream
              end in
            let contentType :=
              match fileDoc with
              | Some f => contentTypeOf f
              | None => JS.Str "image/jpeg"
              end in
            {| status := 200;
               headers := [("Content-Type", contentType);
                           ("Cache-Control", JS.Str "public, max-age=31536000")];
               body := Streamed finalStream |}
      end
  end.

End Image.

(** ** The listing documents: models/Property.ts *)

(** The object the page posts, over the type of its numbers: doubles in
    the page's [propertyData], doubles or [null] once it went through
    JSON. *)
Module Payload.
Record t (num : Type) := {
  images : list string;
  name : string;
  location : string;
  description : string;
  lat : num;
  lng : num;
  createdAt : Z;
  price : num;
  beds : num;
  baths : num;
  area : num
}.
Arguments images {num} _.
Arguments name {num} _.
Arguments location {num} _.
Arguments description {num} _.
Arguments lat {num} _.
Arguments lng {num} _.
Arguments createdAt {num} _.
Arguments price {num} _.
Arguments beds {num} _.
Arguments baths {num} _.
Arguments area {num} _.

(** A number as [JSON.stringify] then [JSON.parse] returns it: [NaN] and
    the infinities become [null], [-0] becomes [0]. *)
Definition json_number (x : float) : option float :=
  if PrimFloat.is_nan x || PrimFloat.is_infinity x then None
  else if PrimFloat.eqb x 0%float then Some 0%float
  else Some x.

(** The request body the server parses. *)
Definition toJSON (p : t float) : t (option float) :=
  {| images := images p;
     name := name p;
     location := location p;
     description := description p;
     lat := json_number (lat p);
     lng := json_number (lng p);
     createdAt := createdAt p;
     price := json_number (price p);
     beds := json_number (beds p);
     baths := json_number (baths p);
     area := json_number (area p) |}.
End Payload.

Module Listing.
(** A stored document of the [Property] model. *)
Record t := {
  _id : ObjectId.t;
  images : list string;
  name : string;
  location : string;
  description : string;
  lat : float;
  lng : float;
  createdAt : Z;
  price : float;
  beds : option float;
  baths : option float;
  area : option float
}.
End Listing.

Module Property.

(** A [required: true] String path rejects the empty string. *)
Definition required_string (s : string) : option string :=
  if JS.nonempty s then Some s else None.

(** Schema validation and casting of a posted body: [name], [location],
    [description], [lat], [lng] and [price] are required; [beds],
    [baths] and [area] have a default, which applies to an absent value
    only, so a [null] stays.  [createdAt] is taken as a time that a [Date]
    can hold, as [Date.now()] of the page is; the cast of a number beyond
    8.64e15 ms, which the schema refuses, is not modelled. *)
Definition validate (fresh : ObjectId.t) (d : Payload.t (option float))
  : option Listing.t :=
  n ← required_string (Payload.name d);
  l ← required_string (Payload.location d);
  ds ← required_string (Payload.description d);
  la ← Payload.lat d;
  lo ← Payload.lng d;
  p ← Payload.price d;
  Some {| Listing._id := fresh;
          Listing.images := Payload.images d;
          Listing.name := n;
          Listing.location := l;
          Listing.description := ds;
          Listing.lat := la;
          Listing.lng := lo;
          Listing.createdAt := Payload.createdAt d;
          Listing.price := p;
          Listing.beds := Payload.beds d;
          Listing.baths := Payload.baths d;
          Listing.area := Payload.area d |}.

(** [Property.create(data)] on the collection, documents in insertion
    order.  [writeOk] tells whether the database accepts the insert. *)
Definition create (fresh : ObjectId.t) (writeOk : bool)
    (d : Payload.t (option float)) (coll : list Listing.t)
  : JS.Outcome Listing.t * list Listing.t :=
  match validate fresh d with
  | None => (JS.Throw "Property validation failed", coll)
  | Some doc =>
      if writeOk then (JS.Ok doc, (coll ++ [doc])%list)
      else (JS.Throw "MongoServerSelectionError", coll)
  end.

(** Insertion of one document in a sequence ordered newest first. *)
Fixpoint insert_desc (x : Listing.t) (l : list Listing.t) : list Listing.t :=
  match l with
  | [] => [x]
  | y :: l' =>
      if Listing.createdAt y <? Listing.createdAt x then x :: l
      else y :: insert_desc x l'
  end.

(** The database's [sort({ createdAt: -1 })]. *)
Definition sort_createdAt_desc (l : list Listing.t) : list Listing.t :=
  foldr insert_desc [] l.

(** [Property.find().sort({ createdAt: -1 })]; [readOk] tells whether the
    database answers the query. *)
Definition find_sorted (readOk : bool) (coll : list Listing.t)
  : JS.Outcome (list Listing.t) :=
  if readOk then JS.Ok (sort_createdAt_desc coll)
  else JS.Throw "MongoServerSelectionError".

End Property.

(** ** utils/db.ts *)

Module Db.

(** The process-wide [cached] object.  [promise] holds how the pending
    [mongoose.connect] settled. *)
Record Cached := {
  conn : option unit;
  promise : option (JS.Outcome unit)
}.

Definition initial : Cached := {| conn := None; promise := None |}.

(** [MONGODB_URI] of the process, and how [mongoose.connect] settles when
    it is called. *)
Record Env := {
  MONGODB_URI : option string;
  connect : JS.Outcome unit
}.

Definition uri_set (e : Env) : bool :=
  match MONGODB_URI e with
  | Some u => JS.nonempty u
  | None => false
  end.

Definition dbConnect (e : Env) (cached : Cached) : JS.Outcome unit * Cached :=
  if negb (uri_set e) then
    (JS.Throw "MONGODB_URI environment variable is not set", cached)
  else
    match conn cached with
    | Some c => (JS.Ok c, cached)
    | None =>
        let p := match promise cached with
                 | Some p => p
                 | None => connect e
                 end in
        match p with
        | JS.Ok c => (JS.Ok c, {| conn := Some c; promise := Some p |})
        | JS.Throw m => (JS.Throw m, {| conn := None; promise := Some p |})
        end
    end.

End Db.

(** ** /api/properties *)

Module Properties.

(** The server's state: the connection cache and the collection. *)
Record State := {
  cached : Db.Cached;
  collection : list Listing.t
}.

Record Env := {
  db : Db.Env;
  storeOk : bool;       (* the database answers reads and writes *)
  fresh : ObjectId.t;   (* the identifier given to a new document *)
  now_id : Z;           (* [Date.now()] for the mock identifier *)
  now_createdAt : Z     (* [Date.now()] for the mock [createdAt] *)
}.

(** A request with a JSON body, [None] when the text is not JSON; a body
    can be read once. *)
Record Request := {
  body : option (Payload.t (option float));
  bodyUsed : bool
}.

Definition request (p : Payload.t (option float)) : Request :=
  {| body := Some p; bodyUsed := false |}.

(** [await req.json()]. *)
Definition json (r : Request)
  : JS.Outcome (Payload.t (option float)) * Request :=
  if bodyUsed r then
    (JS.Throw "Body is unusable: Body has already been read", r)
  else
    match body r with
    | Some p => (JS.Ok p, {| body := body r; bodyUsed := true |})
    | None => (JS.Throw "Unexpected token", {| body := body r; bodyUsed := true |})
    end.

(** [{ _id: "mock_" + Date.now(), ...data, createdAt: Date.now() }]: every
    property of [data] is copied, none of them is [_id], and the later
    [createdAt] replaces the copied one. *)
Record Mock := {
  mock_id : string;
  mock_data : Payload.t (option float);
  mock_createdAt : Z
}.

Inductive Json :=
| Created (doc : Listing.t)
| Mocked (m : Mock).

(** GET: status and body of the one response shape, [NextResponse.json]. *)
Definition GET (e : Env) (st : State) : (Z * list Listing.t) * State :=
  match Db.dbConnect (db e) (cached st) with
  | (JS.Ok _, c) =>
      let st' := {| cached := c; collection := collection st |} in
      match Property.find_sorted (storeOk e) (collection st) with
      | JS.Ok properties => ((200, properties), st')
      | JS.Throw _ => ((200, []), st')
      end
  | (JS.Throw _, c) =>
      ((200, []), {| cached := c; collection := collection st |})
  end.

(** The [catch] block of POST.  When it throws, so does the handler. *)
Definition POST_catch (e : Env) (req : Request) : JS.Outcome Json :=
  match fst (json req) with
  | JS.Ok data =>
      JS.Ok (Mocked {| mock_id := "mock_" +:+ JS.string_of_Z (now_id e);
                       mock_data := data;
                       mock_createdAt := now_createdAt e |})
  | JS.Throw m => JS.Throw m
  end.

(** POST: [Ok] is a response of status 200 with that JSON; [Throw] is a
    handler that rejects, which the framework answers with status 500. *)
Definition POST (e : Env) (req : Request) (st : State)
  : JS.Outcome Json * State :=
  match Db.dbConnect (db e) (cached st) with
  | (JS.Throw _, c) =>
      (POST_catch e req, {| cached := c; collection := collection st |})
  | (JS.Ok _, c) =>
      match json req with
      | (JS.Throw _, req') =>
          (POST_catch e req', {| cached := c; collection := collection st |})
      | (JS.Ok data, req') =>
          match Property.create (fresh e) (storeOk e) data (collection st) with
          | (JS.Ok property, coll) =>
              (JS.Ok (Created property), {| cached := c; collection := coll |})
          | (JS.Throw _, coll) =>
              (POST_catch e req', {| cached := c; collection := coll |})
          end
      end
  end.

End Properties.

(** ** The home page: the submit handler *)

Module Page.

(** A numeric form field: [""] or a number. *)
Inductive Field :=
| Blank
| Filled (x : float).

(** [Number(v)] on a field: [Number("")] is [0]. *)
Definition Number (v : Field) : float :=
  match v with
  | Blank => 0%float
  | Filled x => x
  end.

Module FormData.
Record t := {
  images : list string;
  name : string;
  location : string;
  description : string;
  files : list (option Upload.File);
  price : Field;
  beds : Field;
  baths : Field;
  area : Field
}.
Definition empty : t :=
  {| images := []; name := ""; location := ""; description := "";
     files := []; price := Blank; beds := Blank; baths := Blank;
     area := Blank |}.
End FormData.

Module LatLng.
Record t := { lat : float; lng : float }.
Definition origin : t := {| lat := 0%float; lng := 0%float |}.
End LatLng.

(** One entry of the geocoder's answer; its coordinates are strings. *)
Module GeoEntry.
Record t := { lat : string; lon : string }.
End GeoEntry.

(** What [fetch] gives the page for a JSON route. *)
Inductive Reply (A : Type) :=
| Success (json : A)
| Failure (statusText text : string).
Arguments Success {A} json.
Arguments Failure {A} statusText text.

Record State := {
  form : FormData.t;
  selectedLocation : LatLng.t;
  locationName : string;
  useCurrentLocation : bool;
  properties : list Listing.t;
  showModal : bool;
  submitting : bool;
  uploadProgress : Z;
  alerts : list string
}.

Definition placeholders : list string :=
  ["placeholder1"; "placeholder2"; "placeholder3"].

Definition statusText (c : Upload.ErrorStatus) : string :=
  match c with
  | Upload.BadRequest => "Bad Request"
  | Upload.InternalServerError => "Internal Server Error"
  end.

Section Handler.

(** The page's collaborators: the routes it fetches, the geocoding
    service, [Number] on a string, and the clock. *)
Variable fetchUpload : Upload.File -> JS.Outcome Upload.Response.
Variable fetchGeocode : string -> JS.Outcome (list GeoEntry.t).
Variable fetchCreate :
  Payload.t (option float) -> JS.Outcome (Reply Properties.Json).
Variable fetchProperties : JS.Outcome (list Listing.t).
Variable NumberOfString : string -> float.
Variable now : Z.

Definition uploadToMongo (file : Upload.File) : JS.Outcome string :=
  match fetchUpload file with
  | JS.Throw m => JS.Throw m
  | JS.Ok res =>
      match res with
      | Upload.FileId fileId => JS.Ok fileId
      | Upload.Failed _ code =>
          JS.Throw ("Upload failed: " +:+ statusText code)
      end
  end.

(** [Promise.all]: the results in slot order, or a rejection.  All the
    requests are issued.  [Promise.all] rejects with the reason of the
    promise that rejects first in time; the model has no time and reports
    the first rejection in slot order, so a property that names the reason
    must hold for each rejected slot. *)
Fixpoint all (ps : list (JS.Outcome string)) : JS.Outcome (list string) :=
  match ps with
  | [] => JS.Ok []
  | JS.Throw m :: _ => JS.Throw m
  | JS.Ok x :: ps' =>
      match all ps' with
      | JS.Ok xs => JS.Ok (x :: xs)
      | JS.Throw m => JS.Throw m
      end
  end.

(** [form.files.map(file => file ? uploadToMongo(file) : null)
    .filter(Boolean)]. *)
Definition uploadPromises (files : list (option Upload.File))
  : list (JS.Outcome string) :=
  omap (fun file => uploadToMongo <$> file) files.

(** The identifiers after the upload step and the fallback. *)
Definition imageIds (f : FormData.t) : JS.Outcome (list string) :=
  let uploaded :=
    if (0 <? Z.of_nat (List.length (FormData.files f)))
    then all (uploadPromises (FormData.files f))
    else JS.Ok [] in
  match uploaded with
  | JS.Ok ids =>
      JS.Ok (if Z.of_nat (List.length ids) =? 0 then placeholders else ids)
  | JS.Throw m => JS.Throw m
  end.

(** The coordinates: the selected ones, replaced by the first geocoding
    result when both are zero and the location text is not blank. *)
Definition coordinates (sel : LatLng.t) (location : string) : float * float :=
  let lat := LatLng.lat sel in
  let lon := LatLng.lng sel in
  if JS.is_zero lat && JS.is_zero lon && JS.nonempty (JS.trim location) then
    match fetchGeocode location with
    | JS.Ok (g :: _) =>
        (NumberOfString (GeoEntry.lat g), NumberOfString (GeoEntry.lon g))
    | JS.Ok [] => (lat, lon)
    | JS.Throw _ => (lat, lon)
    end
  else (lat, lon).

Definition propertyData (st : State) (ids : list string) : Payload.t float :=
  let f := form st in
  let '(lat, lon) := coordinates (selectedLocation st) (FormData.location f) in
  {| Payload.images := ids;
     Payload.name := FormData.name f;
     Payload.location :=
       if JS.nonempty (locationName st) then locationName st
       else FormData.location f;
     Payload.description := FormData.description f;
     Payload.lat := lat;
     Payload.lng := lon;
     Payload.createdAt := now;
     Payload.price := Number (FormData.price f);
     Payload.beds := Number (FormData.beds f);
     Payload.baths := Number (FormData.baths f);
     Payload.area := Number (FormData.area f) |}.

(** The first part of the [try]: the [propertyData] that is composed,
    unless an upload threw. *)
Definition composed (st : State) : JS.Outcome (Payload.t float) :=
  match imageIds (form st) with
  | JS.Throw m => JS.Throw m
  | JS.Ok ids => JS.Ok (propertyData st ids)
  end.

(** The whole [try]: the payload that was composed, the answer of the
    create route and the refreshed listings, or what was thrown. *)
Definition submit (st : State)
  : JS.Outcome (Payload.t float * Properties.Json * list Listing.t) :=
  match composed st with
  | JS.Throw m => JS.Throw m
  | JS.Ok data =>
      match fetchCreate (Payload.toJSON data) with
      | JS.Throw m => JS.Throw m
      | JS.Ok (Failure statusText errorText) =>
          JS.Throw ("Failed to create property: " +:+ statusText
                    +:+ " - " +:+ errorText)
      | JS.Ok (Success propertyResult) =>
          match fetchProperties with
          | JS.Throw m => JS.Throw m
          | JS.Ok refreshed => JS.Ok (data, propertyResult, refreshed)
          end
      end
  end.

(** The state once the handler has returned. *)
Definition handleSubmit (st : State) : State :=
  match submit st with
  | JS.Ok (_, _, refreshedProperties) =>
      {| form := FormData.empty;
         selectedLocation := LatLng.origin;
         locationName := "";
         useCurrentLocation := false;
         properties := refreshedProperties;
         showModal := false;
         submitting := false;
         uploadProgress := 0;
         alerts := alerts st |}
  | JS.Throw errorMessage =>
      {| form := form st;
         selectedLocation := selectedLocation st;
         locationName := locationName st;
         useCurrentLocation := useCurrentLocation st;
         properties := properties st;
         showModal := showModal st;
         submitting := false;
         uploadProgress := 0;
         alerts := (alerts st ++ ["Error: " +:+ errorMessage])%list |}
  end.

End Handler.

(** The create route as the page sees it through [fetch]: a handler that
    rejects is answered with status 500 and an empty body. *)
Definition fetchCreate_of (e : Properties.Env) (srv : Properties.State)
    (p : Payload.t (option float)) : JS.Outcome (Reply Properties.Json) :=
  match fst (Properties.POST e (Properties.request p) srv) with
  | JS.Ok j => JS.Ok (Success j)
  | JS.Throw _ => JS.Ok (Failure "Internal Server Error" "")
  end.


(** The upload route as the page sees it, on a bucket. *)
Definition fetchUpload_of `{Zlib} (e : Upload.Env) (bk : GridFS.Bucket)
    (file : Upload.File) : JS.Outcome Upload.Response :=
  JS.Ok (fst (Upload.POST e (Upload.Form (Some file)) bk)).

(** *** The image slots of the form *)

(** [a[i] = x] on an array whose empty slots, [null] and [undefined] are
    [None]: within the array the slot is replaced; beyond its end the
    array grows up to [i], the slots in between left empty. *)
Definition assign {A : Type} (i : nat) (x : option A) (a : list (option A))
  : list (option A) :=
  if (i <? List.length a)%nat then <[i := x]> a
  else (a ++ replicate (i - List.length a) None ++ [x])%list.

(** [a[i]]. *)
Definition slot {A : Type} (a : list (option A)) (i : nat) : option A :=
  default None (a !! i).

Definition setFiles (files : list (option Upload.File)) (st : State) : State :=
  {| form :=
       {| FormData.images := FormData.images (form st);
          FormData.name := FormData.name (form st);
          FormData.location := FormData.location (form st);
          FormData.description := FormData.description (form st);
          FormData.files := files;
          FormData.price := FormData.price (form st);
          FormData.beds := FormData.beds (form st);
          FormData.baths := FormData.baths (form st);
          FormData.area := FormData.area (form st) |};
     selectedLocation := selectedLocation st;
     locationName := locationName st;
     useCurrentLocation := useCurrentLocation st;
     properties := properties st;
     showModal := showModal st;
     submitting := submitting st;
     uploadProgress := uploadProgress st;
     alerts := alerts st |}.

(** The [onChange] of the file input of slot [index]; [chosen] is
    [e.target.files]. *)
Definition onFileChange (index : nat) (chosen : list Upload.File) (st : State)
  : State :=
  match chosen with
  | [] => st
  | file :: _ => setFiles (assign index (Some file) (FormData.files (form st))) st
  end.

(** The remove button of slot [index]. *)
Definition onFileRemove (index : nat) (st : State) : State :=
  setFiles (assign index None (FormData.files (form st))) st.

(** *** The location of the form *)

(** The two state variables of the suggestion list. *)
Record Suggestions := {
  locationSuggestions : list string;
  showSuggestions : bool
}.

Definition setLocation (location name : string) (st : State) : State :=
  {| form :=
       {| FormData.images := FormData.images (form st);
          FormData.name := FormData.name (form st);
          FormData.location := location;
          FormData.description := FormData.description (form st);
          FormData.files := FormData.files (form st);
          FormData.price := FormData.price (form st);
          FormData.beds := FormData.beds (form st);
          FormData.baths := FormData.baths (form st);
          FormData.area := FormData.area (form st) |};
     selectedLocation := selectedLocation st;
     locationName := name;
     useCurrentLocation := useCurrentLocation st;
     properties := properties st;
     showModal := showModal st;
     submitting := submitting st;
     uploadProgress := uploadProgress st;
     alerts := alerts st |}.

(** [selectLocation]: the suggestion becomes the location text and the
    location name, and the suggestion list is emptied and hidden. *)
Definition selectLocation (location : string) (st : State)
  : State * Suggestions :=
  (setLocation location location st,
   {| locationSuggestions := []; showSuggestions := false |}).

(** [data.display_name || fallback]. *)
Definition display_name_or (display_name : option string) (fallback : string)
  : string :=
  match display_name with
  | Some n => if JS.nonempty n then n else fallback
  | None => fallback
  end.

Definition setPoint (lat lng : float) (current : bool) (name : string)
    (st : State) : State :=
  {| form := form st;
     selectedLocation := {| LatLng.lat := lat; LatLng.lng := lng |};
     locationName := name;
     useCurrentLocation := current;
     properties := properties st;
     showModal := showModal st;
     submitting := submitting st;
     uploadProgress := uploadProgress st;
     alerts := alerts st |}.

(** [handleMapClick], once the reverse lookup has settled: [reverse] gives
    the [display_name] of its answer, which may be absent, or throws, and
    then the name is not set. *)
Definition handleMapClick
    (reverse : float -> float -> JS.Outcome (option string))
    (lat lng : float) (st : State) : State :=
  match reverse lat lng with
  | JS.Ok display_name =>
      setPoint lat lng false (display_name_or display_name "Selected Location") st
  | JS.Throw _ => setPoint lat lng false (locationName st) st
  end.

(** What [navigator.geolocation] does for the page. *)
Inductive Geolocation :=
| Unsupported
| PositionError
| Position (latitude longitude : float).

Definition alert (msg : string) (st : State) : State :=
  {| form := form st;
     selectedLocation := selectedLocation st;
     locationName := locationName st;
     useCurrentLocation := useCurrentLocation st;
     properties := properties st;
     showModal := showModal st;
     submitting := submitting st;
     uploadProgress := uploadProgress st;
     alerts := (alerts st ++ [msg])%list |}.

(** [getCurrentLocation], once the reverse lookup has settled. *)
Definition getCurrentLocation (geolocation : Geolocation)
    (reverse : float -> float -> JS.Outcome (option string)) (st : State)
  : State :=
  match geolocation with
  | Unsupported => alert "Geolocation is not supported by this browser." st
  | PositionError =>
      alert "Could not get current location. Please select manually on the map." st
  | Position latitude longitude =>
      match reverse latitude longitude with
      | JS.Ok display_name =>
          setPoint latitude longitude true
            (display_name_or display_name "Current Location") st
      | JS.Throw _ => setPoint latitude longitude true (locationName st) st
      end
  end.

(** *** The listing cards *)

Definition stockPhoto : string :=
  "https://images.unsplash.com/photo-1506744038136-46273834b3fb?auto=format&fit=crop&w=400&q=80".

(** The [src] of one image of a listing, as the details modal computes it
    for each identifier and the cards and markers for the first one. *)
Definition imageSrc (imgId : string) : string :=
  if JS.startsWith "placeholder" imgId then stockPhoto
  else "/api/image/" +:+ imgId.

(** [mainImg] of a card or of a marker. *)
Definition mainImg (images : list string) : string :=
  match images with
  | [] => stockPhoto
  | imgId :: _ => imageSrc imgId
  end.

(** The button of the form: [disabled]. *)
Definition submitDisabled (st : State) : bool :=
  submitting st || negb (JS.nonempty (FormData.name (form st)))
  || negb (JS.nonempty (FormData.description (form st))).

End Page.

(** ** RealEstateMap.tsx *)

Module RealEstateMap.

(** Whether the marker of the selected location is drawn:
    [selectedLocation.lat !== 0 && selectedLocation.lng !== 0]. *)
Definition selectedMarker (sel : Page.LatLng.t) : bool :=
  negb (JS.is_zero (Page.LatLng.lat sel)) && negb (JS.is_zero (Page.LatLng.lng sel)).

End RealEstateMap.

(** An identifier is twelve bytes. *)
Definition ObjectId_wf (id : ObjectId.t) : Prop := (id < 2 ^ 96)%N.

(** ** A codec to run the model on *)

(** A two-byte frame in place of deflate: enough to tell a stored payload
    from the original, and to exercise the inflating path. *)
Definition frame (b : list byte) : list byte := x1f :: x8b :: b.

Definition unframe (b : list byte) : option (list byte) :=
  match b with
  | x1f :: x8b :: b' => Some b'
  | _ => None
  end.

#[local] Instance framed_zlib : Zlib :=
  {| gzip := frame; gunzip := unframe; gunzip_gzip := fun b => eq_refl |}.

(** ** Sample inputs *)

Definition small_png : Upload.File :=
  {| Upload.name := "plan.png";
     Upload.type := "image/png";
     Upload.content := [x89; x50; x4e; x47] |}.

(** One byte more than 1 MiB. *)
Definition large_png : Upload.File :=
  {| Upload.name := "photo.png";
     Upload.type := "image/png";
     Upload.content := repeat x00 (Z.to_nat 1048577) |}.

Definition notes_txt : Upload.File :=
  {| Upload.name := "notes.txt";
     Upload.type := "text/plain";
     Upload.content := [x68; x69] |}.

Definition upload_env : Upload.Env :=
  {| Upload.now := 1700000000000;
     Upload.fresh := 255%N;
     Upload.race := Upload.Finish |}.

(** Newest first: [b] may follow [a]. *)
Definition newest_first (a b : Listing.t) : Prop :=
  Listing.createdAt b <= Listing.createdAt a.

Definition db_up : Db.Env :=
  {| Db.MONGODB_URI := Some "mongodb://localhost:27017/real-estate";
     Db.connect := JS.Ok tt |}.

Definition db_unset : Db.Env :=
  {| Db.MONGODB_URI := None; Db.connect := JS.Ok tt |}.

Definition server_env (db : Db.Env) : Properties.Env :=
  {| Properties.db := db;
     Properties.storeOk := true;
     Properties.fresh := 4096%N;
     Properties.now_id := 1700000000123;
     Properties.now_createdAt := 1700000000124 |}.

Definition server_start : Properties.State :=
  {| Properties.cached := Db.initial; Properties.collection := [] |}.

(** A filled form with no location text, and no point picked on the map. *)
Definition form_without_location : Page.FormData.t :=
  {| Page.FormData.images := [];
     Page.FormData.name := "Villa";
     Page.FormData.location := "";
     Page.FormData.description := "Sea view";
     Page.FormData.files := [];
     Page.FormData.price := Page.Filled 250000%float;
     Page.FormData.beds := Page.Filled 3%float;
     Page.FormData.baths := Page.Filled 2%float;
     Page.FormData.area := Page.Filled 120%float |}.

Definition page_start (f : Page.FormData.t) (sel : Page.LatLng.t) : Page.State :=
  {| Page.form := f;
     Page.selectedLocation := sel;
     Page.locationName := "";
     Page.useCurrentLocation := false;
     Page.properties := [];
     Page.showModal := true;
     Page.submitting := false;
     Page.uploadProgress := 0;
     Page.alerts := [] |}.

Definition listing_at (id : ObjectId.t) (t : Z) : Listing.t :=
  {| Listing._id := id;
     Listing.images := ["placeholder1"; "placeholder2"; "placeholder3"];
     Listing.name := "Villa";
     Listing.location := "Accra";
     Listing.description := "Sea view";
     Listing.lat := 5.5%float;
     Listing.lng := (-0.25)%float;
     Listing.createdAt := t;
     Listing.price := 250000%float;
     Listing.beds := Some 3%float;
     Listing.baths := Some 2%float;
     Listing.area := Some 120%float |}.

(** Three documents, inserted neither oldest first nor newest first. *)
Definition server_three : Properties.State :=
  {| Properties.cached := Db.initial;
     Properties.collection :=
       [listing_at 1%N 2000; listing_at 2%N 3000; listing_at 3%N 1000] |}.

(** The point picked on the map in the scenario of the specification. *)
Definition picked_point : Page.LatLng.t :=
  {| Page.LatLng.lat := 5.55%float; Page.LatLng.lng := (-0.20)%float |}.

Definition form_with_location (text : string) : Page.FormData.t :=
  {| Page.FormData.images := [];
     Page.FormData.name := "Villa";
     Page.FormData.location := text;
     Page.FormData.description := "Sea view";
     Page.FormData.files := [];
     Page.FormData.price := Page.Filled 250000%float;
     Page.FormData.beds := Page.Filled 3%float;
     Page.FormData.baths := Page.Filled 2%float;
     Page.FormData.area := Page.Filled 120%float |}.

(** Stand-ins for the page's collaborators. *)
Definition geocode_one (q : string) : JS.Outcome (list Page.GeoEntry.t) :=
  JS.Ok [{| Page.GeoEntry.lat := "6.5"; Page.GeoEntry.lon := "-1.625" |}].

Definition geocode_down (q : string) : JS.Outcome (list Page.GeoEntry.t) :=
  JS.Throw "Failed to fetch".

Definition number_of (s : string) : float :=
  if String.eqb s "6.5" then 6.5%float
  else if String.eqb s "-1.625" then (-1.625)%float
  else PrimFloat.nan.

Definition upload_down (f : Upload.File) : JS.Outcome Upload.Response :=
  JS.Throw "Failed to fetch".

(** Text made of white space only. *)
Fixpoint blank (s : string) : bool :=
  match s with
  | EmptyString => true
  | String c s' => JS.is_space c && blank s'
  end.

(** The connection was made by an earlier request; the database has stopped
    answering since. *)
Definition server_env_store_down : Properties.Env :=
  {| Properties.db := db_up;
     Properties.storeOk := false;
     Properties.fresh := 4096%N;
     Properties.now_id := 1700000000123;
     Properties.now_createdAt := 1700000000124 |}.

Definition server_connected : Properties.State :=
  {| Properties.cached :=
       {| Db.conn := Some tt; Db.promise := Some (JS.Ok tt) |};
     Properties.collection := [] |}.

(** The database cannot be reached when the first request arrives. *)
Definition db_unreachable : Db.Env :=
  {| Db.MONGODB_URI := Some "mongodb://localhost:27017/real-estate";
     Db.connect := JS.Throw "MongooseServerSelectionError" |}.

(** A double that JSON can carry. *)
Definition finite (x : float) : Prop :=
  PrimFloat.is_nan x || PrimFloat.is_infinity x = false.

(** [s.toLowerCase()], on ASCII text. *)
Definition lower_char (c : ascii) : ascii :=
  let n := N_of_ascii c in
  if ((65 <=? n) && (n <=? 90))%N then ascii_of_N (n + 32) else c.

Fixpoint toLowerCase (s : string) : string :=
  match s with
  | EmptyString => EmptyString
  | String c s' => String (lower_char c) (toLowerCase s')
  end.

(** A text without [/]. *)
Definition slash_free (s : string) : Prop :=
  ~ In "/"%char (list_ascii_of_string s).

(** A point on the equator. *)
Definition equator_point : Page.LatLng.t :=
  {| Page.LatLng.lat := 0%float; Page.LatLng.lng := 9.5%float |}.

(** A reverse lookup that names every point alike, and one that gives no
    name. *)
Definition reverse_named (lat lng : float) : JS.Outcome (option string) :=
  JS.Ok (Some "Osu, Accra").

Definition reverse_unnamed (lat lng : float) : JS.Outcome (option string) :=
  JS.Ok None.

(** * Properties *)

(** ** The model on small inputs *)

Example truthy_empty_string : JS.truthy (JS.Str "") = false.
Proof. reflexivity. Qed.

Example trim_example : JS.trim "  Accra " = "Accra".
Proof. reflexivity. Qed.

Example is_zero_example : JS.is_zero 5.5%float = false /\ JS.is_zero (-0)%float = true.
Proof. split; reflexivity. Qed.

Example string_of_Z_example : JS.string_of_Z 1700000000000 = "1700000000000".
Proof. reflexivity. Qed.

Example ObjectId_toString_example :
  ObjectId.toString 255%N = "0000000000000000000000ff".
Proof. reflexivity. Qed.

Example ObjectId_of_string_example :
  ObjectId.of_string "0000000000000000000000FF" = Some 255%N
  /\ ObjectId.of_string "xyz" = None.
Proof. split; reflexivity. Qed.

Example idMatch_examples :
  Image.idMatch "/api/image/abc" = Some "abc"
  /\ Image.idMatch "/api/image/" = None
  /\ Image.idMatch "/api/image//api/image/abc/def" = Some "abc".
Proof. repeat split; reflexivity. Qed.

(** ** Object identifiers and the path expression *)

Lemma hex_char_digit (d : N) :
  (d < 16)%N ->
  ObjectId.hex_digit (ObjectId.hex_char d) = Some d
  /\ Ascii.eqb (ObjectId.hex_char d) "/" = false.
Proof.
  intros Hd.
  assert (Hcases : In d (map N.of_nat (seq 0 16))).
  { apply in_map_iff. exists (N.to_nat d). split; [lia|].
    apply in_seq. lia. }
  cbn in Hcases.
  repeat (destruct Hcases as [<- | Hcases]; [split; reflexivity|]).
  destruct Hcases.
Qed.

Lemma hex_digits_length (k : nat) : forall n rest,
  String.length (ObjectId.hex_digits k n rest) = (k + String.length rest)%nat.
Proof.
  induction k as [|k IH]; intros n rest; cbn [ObjectId.hex_digits].
  - reflexivity.
  - rewrite IH. cbn [String.length]. lia.
Qed.

Lemma parse_hex_digits (k : nat) : forall n rest acc,
  ObjectId.parse_hex (ObjectId.hex_digits k n rest) acc
  = ObjectId.parse_hex rest (acc * 16 ^ N.of_nat k + n mod 16 ^ N.of_nat k)%N.
Proof.
  induction k as [|k IH]; intros n rest acc.
  - cbn [ObjectId.hex_digits]. change (16 ^ N.of_nat 0)%N with 1%N.
    rewrite N.mod_1_r. f_equal. lia.
  - cbn [ObjectId.hex_digits]. rewrite IH. cbn [ObjectId.parse_hex].
    destruct (hex_char_digit (n mod 16)%N) as [-> _].
    { apply N.mod_lt. discriminate. }
    f_equal.
    rewrite Nat2N.inj_succ, N.pow_succ_r'.
    rewrite (N.Div0.mod_mul_r n 16 (16 ^ N.of_nat k)).
    lia.
Qed.

Lemma ObjectId_toString_length (id : ObjectId.t) :
  String.length (ObjectId.toString id) = 24%nat.
Proof. unfold ObjectId.toString. now rewrite hex_digits_length. Qed.

Lemma ObjectId_of_toString (id : ObjectId.t) :
  ObjectId_wf id -> ObjectId.of_string (ObjectId.toString id) = Some id.
Proof.
  intros Hid. unfold ObjectId.of_string.
  rewrite ObjectId_toString_length. cbn [Nat.eqb].
  unfold ObjectId.toString. rewrite parse_hex_digits.
  cbn [ObjectId.parse_hex]. f_equal.
  change (16 ^ N.of_nat 24)%N with (2 ^ 96)%N.
  rewrite N.mod_small by exact Hid. lia.
Qed.

Lemma take_segment_hex_digits (k : nat) : forall n rest,
  Image.take_segment (ObjectId.hex_digits k n rest)
  = ObjectId.hex_digits k n (Image.take_segment rest).
Proof.
  induction k as [|k IH]; intros n rest; cbn [ObjectId.hex_digits].
  - reflexivity.
  - rewrite IH. cbn [Image.take_segment].
    destruct (hex_char_digit (n mod 16)%N) as [_ ->]; [|reflexivity].
    apply N.mod_lt. discriminate.
Qed.

(** The path the page builds for a stored image leads back to its
    identifier. *)
Lemma idMatch_toString (id : ObjectId.t) :
  Image.idMatch ("/api/image/" +:+ ObjectId.toString id)
  = Some (ObjectId.toString id).
Proof.
  assert (Hseg : Image.take_segment (ObjectId.toString id) = ObjectId.toString id).
  { unfold ObjectId.toString. now rewrite take_segment_hex_digits. }
  assert (Hhere : Image.match_here ("/api/image/" +:+ ObjectId.toString id)
                  = Some (ObjectId.toString id)).
  { unfold Image.match_here.
    change (Image.strip_prefix "/api/image/"
              ("/api/image/" +:+ ObjectId.toString id))
      with (Some (ObjectId.toString id)).
    cbv beta iota. rewrite Hseg.
    pose proof (ObjectId_toString_length id) as Hlen.
    destruct (ObjectId.toString id); [discriminate Hlen | reflexivity]. }
  change ("/api/image/" +:+ ObjectId.toString id)
    with (String "/" ("api/image/" +:+ ObjectId.toString id)) in *.
  cbn [Image.idMatch]. now rewrite Hhere.
Qed.

(** ** What the upload route stores *)

Lemma startsWith_image_nonempty (s : string) :
  JS.startsWith "image/" s = true -> JS.nonempty s = true.
Proof. destruct s; [discriminate | reflexivity]. Qed.

Lemma uploadMetadata_compressed (e : Upload.Env) (f : Upload.File) :
  Upload.uploadMetadata e f !! "compressed"
  = Some (JS.Bool (Upload.shouldCompress f)).
Proof. unfold Upload.uploadMetadata. now simplify_map_eq. Qed.

Lemma uploadMetadata_originalContentType (e : Upload.Env) (f : Upload.File) :
  Upload.uploadMetadata e f !! "originalContentType" = None.
Proof. unfold Upload.uploadMetadata. now simplify_map_eq. Qed.

Lemma uploadMetadata_dom (e : Upload.Env) (f : Upload.File) :
  dom (Upload.uploadMetadata e f)
  = ({[ "uploadedAt"; "originalName"; "size"; "compressed" ]} : gset string).
Proof. unfold Upload.uploadMetadata. rewrite !dom_insert_L. set_solver. Qed.

Section Stored.
Context `{Zlib}.

Lemma isCompressed_storedFile (e : Upload.Env) (f : Upload.File) :
  Image.isCompressed (Upload.storedFile e f) = Upload.shouldCompress f.
Proof.
  unfold Image.isCompressed. cbn [GridFS.metadata Upload.storedFile].
  rewrite uploadMetadata_compressed. reflexivity.
Qed.

(** An accepted upload: the answer and the bucket. *)
Lemma POST_accepted (e : Upload.Env) (f : Upload.File) (bk : GridFS.Bucket) :
  Upload.size f <= Upload.maxSize ->
  JS.startsWith "image/" (Upload.type f) = true ->
  Upload.race e = Upload.Finish ->
  Upload.POST e (Upload.Form (Some f)) bk
  = (Upload.FileId (ObjectId.toString (Upload.fresh e)),
     <[Upload.fresh e := Upload.storedFile e f]> bk).
Proof.
  intros Hsize Htype Hrace. unfold Upload.POST.
  replace (Upload.size f >? Upload.maxSize) with false by lia.
  rewrite Htype, Hrace. reflexivity.
Qed.

(** Serving a stored file whose identifier is in the bucket. *)
Lemma GET_stored (id : ObjectId.t) (sf : GridFS.StoredFile) (bk : GridFS.Bucket) :
  ObjectId_wf id ->
  bk !! id = Some sf ->
  Image.GET true ("/api/image/" +:+ ObjectId.toString id) bk
  = {| Image.status := 200;
       Image.headers :=
         [("Content-Type", Image.contentTypeOf sf);
          ("Cache-Control", JS.Str "public, max-age=31536000")];
       Image.body :=
         Image.Streamed
           (if Image.isCompressed sf
            then GridFS.pipe_gunzip (GridFS.Bytes (GridFS.data sf))
            else GridFS.Bytes (GridFS.data sf)) |}.
Proof.
  intros Hid Hsf. unfold Image.GET.
  rewrite idMatch_toString, (ObjectId_of_toString _ Hid).
  cbn [negb]. unfold GridFS.findOne, GridFS.openDownloadStream.
  rewrite Hsf. reflexivity.
Qed.

End Stored.

Lemma size_large_png : Upload.size large_png = 1048577.
Proof.
  unfold Upload.size, large_png. cbn [Upload.content].
  rewrite repeat_length, Z2Nat.id; lia.
Qed.

Section RoundTrip.
Context `{Zlib}.

Lemma contentTypeOf_storedFile (e : Upload.Env) (f : Upload.File) :
  JS.startsWith "image/" (Upload.type f) = true ->
  Image.contentTypeOf (Upload.storedFile e f)
  = JS.Str (if Upload.shouldCompress f then "image/jpeg" else Upload.type f).
Proof.
  intros Htype. unfold Image.contentTypeOf.
  rewrite isCompressed_storedFile.
  destruct (Upload.shouldCompress f) eqn:Hc.
  - cbn [GridFS.metadata Upload.storedFile mbind option_bind].
    rewrite uploadMetadata_originalContentType. reflexivity.
  - cbn [GridFS.contentType Upload.storedFile fmap option_fmap option_map].
    rewrite Hc. unfold JS.or_else, JS.truthy.
    apply startsWith_image_nonempty in Htype. unfold JS.nonempty in Htype.
    now rewrite Htype.
Qed.

Lemma stream_storedFile (e : Upload.Env) (f : Upload.File) :
  (if Image.isCompressed (Upload.storedFile e f)
   then GridFS.pipe_gunzip (GridFS.Bytes (GridFS.data (Upload.storedFile e f)))
   else GridFS.Bytes (GridFS.data (Upload.storedFile e f)))
  = GridFS.Bytes (Upload.content f).
Proof.
  rewrite isCompressed_storedFile. cbn [GridFS.data Upload.storedFile].
  destruct (Upload.shouldCompress f); [|reflexivity].
  unfold GridFS.pipe_gunzip. now rewrite gunzip_gzip.
Qed.

(** Uploading a file and then asking for the returned identifier. *)
Lemma upload_then_GET (e : Upload.Env) (f : Upload.File) (bk : GridFS.Bucket) :
  Upload.size f <= Upload.maxSize ->
  JS.startsWith "image/" (Upload.type f) = true ->
  Upload.race e = Upload.Finish ->
  ObjectId_wf (Upload.fresh e) ->
  Image.GET true ("/api/image/" +:+ ObjectId.toString (Upload.fresh e))
            (snd (Upload.POST e (Upload.Form (Some f)) bk))
  = {| Image.status := 200;
       Image.headers :=
         [("Content-Type",
           JS.Str (if Upload.shouldCompress f then "image/jpeg"
                   else Upload.type f));
          ("Cache-Control", JS.Str "public, max-age=31536000")];
       Image.body := Image.Streamed (GridFS.Bytes (Upload.content f)) |}.
Proof.
  intros Hsize Htype Hrace Hid.
  rewrite POST_accepted by assumption. cbn [snd].
  rewrite (GET_stored _ (Upload.storedFile e f)); [|assumption|apply lookup_insert_eq].
  now rewrite contentTypeOf_storedFile, stream_storedFile.
Qed.

End RoundTrip.

(** ** The upload route *)

(** C4: every file that is at most 5 MB and declares an image type, the
    write finishing, is uploaded: the route answers with the generated
    identifier and the bucket holds a stored object under it.  When the
    file is longer than 1 MiB (1048576 bytes) the stored bytes are the gzip
    of its content and the [compressed] flag of the stored metadata is
    [true]; when it is at most 1 MiB the stored bytes are its content and
    the flag is [false]. *)
Theorem C4_compression_threshold `{Zlib} (e : Upload.Env) (f : Upload.File)
    (bk : GridFS.Bucket) :
  Upload.size f <= 5242880 ->
  JS.startsWith "image/" (Upload.type f) = true ->
  Upload.race e = Upload.Finish ->
  fst (Upload.POST e (Upload.Form (Some f)) bk)
  = Upload.FileId (ObjectId.toString (Upload.fresh e))
  /\ exists sf,
       snd (Upload.POST e (Upload.Form (Some f)) bk) !! Upload.fresh e = Some sf
       /\ (1048576 < Upload.size f ->
           GridFS.data sf = gzip (Upload.content f)
           /\ GridFS.metadata sf ≫= (.!! "compressed") = Some (JS.Bool true))
       /\ (Upload.size f <= 1048576 ->
           GridFS.data sf = Upload.content f
           /\ GridFS.metadata sf ≫= (.!! "compressed") = Some (JS.Bool false)).
Proof.
  intros Hsize Htype Hrace.
  rewrite POST_accepted by (unfold Upload.maxSize; auto with zarith).
  cbn [fst snd]. split; [reflexivity|].
  exists (Upload.storedFile e f). split; [apply lookup_insert_eq|].
  cbn [GridFS.data GridFS.metadata Upload.storedFile mbind option_bind].
  rewrite uploadMetadata_compressed. unfold Upload.shouldCompress.
  split; intros Hsz.
  - replace (Upload.size f >? 1024 * 1024) with true by lia. now split.
  - replace (Upload.size f >? 1024 * 1024) with false by lia. now split.
Qed.

(** The theorem on a file of 1048577 bytes, stored as its gzip, and on a
    file of four bytes, stored as it is. *)
Lemma C4_compression_threshold_witness :
  (1048576 < Upload.size large_png
   /\ fst (Upload.POST upload_env (Upload.Form (Some large_png)) ∅)
      = Upload.FileId "0000000000000000000000ff"
   /\ exists sf,
        snd (Upload.POST upload_env (Upload.Form (Some large_png)) ∅) !! 255%N
        = Some sf
        /\ GridFS.data sf = frame (Upload.content large_png)
        /\ GridFS.metadata sf ≫= (.!! "compressed") = Some (JS.Bool true))
  /\ (Upload.size small_png <= 1048576
      /\ exists sf,
           snd (Upload.POST upload_env (Upload.Form (Some small_png)) ∅) !! 255%N
           = Some sf
           /\ GridFS.data sf = Upload.content small_png
           /\ GridFS.metadata sf ≫= (.!! "compressed") = Some (JS.Bool false)).
Proof.
  assert (Hbig : 1048576 < Upload.size large_png)
    by (rewrite size_large_png; lia).
  assert (Hmax : Upload.size large_png <= 5242880)
    by (rewrite size_large_png; lia).
  assert (Hsmall : Upload.size small_png <= 1048576) by (cbv; discriminate).
  assert (Hsmall_max : Upload.size small_png <= 5242880) by (cbv; discriminate).
  split.
  - split; [exact Hbig|].
    destruct (C4_compression_threshold upload_env large_png ∅ Hmax eq_refl eq_refl)
      as (Hres & sf & Hsf & Hgz & _).
    split; [exact Hres|].
    exists sf. split; [exact Hsf|]. exact (Hgz Hbig).
  - split; [exact Hsmall|].
    destruct (C4_compression_threshold upload_env small_png ∅ Hsmall_max
                eq_refl eq_refl)
      as (_ & sf & Hsf & _ & Hraw).
    exists sf. split; [exact Hsf|]. exact (Hraw Hsmall).
Defined.

(** Conversely, an answer with an identifier is given to a file only, and
    that file is stored under the generated identifier. *)
Lemma FileId_answers_a_file `{Zlib} (e : Upload.Env) (req : Upload.Request)
    (bk : GridFS.Bucket) (fileId : string) :
  fst (Upload.POST e req bk) = Upload.FileId fileId ->
  exists f,
    req = Upload.Form (Some f)
    /\ Upload.size f <= 5242880
    /\ JS.startsWith "image/" (Upload.type f) = true
    /\ Upload.race e = Upload.Finish
    /\ snd (Upload.POST e req bk) !! Upload.fresh e
       = Some (Upload.storedFile e f).
Proof.
  unfold Upload.POST. intros Hres.
  destruct req as [|[f|]|value]; try discriminate Hres.
  - destruct (Upload.size f >? Upload.maxSize) eqn:Hsize; [discriminate Hres|].
    destruct (JS.startsWith "image/" (Upload.type f)) eqn:Htype;
      cbn [negb] in *; [|discriminate Hres].
    destruct (Upload.race e) eqn:Hrace; try discriminate Hres.
    exists f. cbn [snd]. unfold Upload.maxSize in Hsize.
    split; [reflexivity|]. split; [lia|].
    split; [first [assumption | reflexivity]|].
    split; [first [assumption | reflexivity] | apply lookup_insert_eq].
  - destruct (JS.nonempty value); discriminate Hres.
Qed.

(** C5, as stated, fails on requests that carry no file: a body that is
    not form data, and a form whose field [file] is a text, are both
    answered with status 500, not 400. *)
Lemma C5_no_file_answered_500 :
  Upload.status (fst (Upload.POST upload_env Upload.Malformed ∅)) = 500
  /\ Upload.status (fst (Upload.POST upload_env (Upload.TextField "plan.png") ∅))
     = 500
  /\ Upload.status (fst (Upload.POST upload_env Upload.Malformed ∅)) <> 400
  /\ Upload.status (fst (Upload.POST upload_env (Upload.TextField "plan.png") ∅))
     <> 400.
Proof.
  split; [reflexivity|]. split; [reflexivity|]. split; discriminate.
Qed.

(** C5, amended: a request whose form data parses and whose field [file]
    is absent or an empty text, or holds a file longer than 5 MB (5242880
    bytes), or a file whose MIME type does not start with [image/], is
    answered with status 400, and the bucket is left as it was. *)
Theorem C5_rejects_invalid_upload `{Zlib} (e : Upload.Env)
    (req : Upload.Request) (bk : GridFS.Bucket) :
  (req = Upload.Form None
   \/ req = Upload.TextField ""
   \/ exists f, req = Upload.Form (Some f)
        /\ (5242880 < Upload.size f
            \/ JS.startsWith "image/" (Upload.type f) = false)) ->
  Upload.status (fst (Upload.POST e req bk)) = 400
  /\ snd (Upload.POST e req bk) = bk.
Proof.
  unfold Upload.POST.
  intros [-> | [-> | (f & -> & Hbad)]]; [now split | now split |].
  destruct (Upload.size f >? Upload.maxSize) eqn:Hsize; [now split|].
  destruct Hbad as [Hbig | Htype].
  - unfold Upload.maxSize in Hsize. lia.
  - rewrite Htype. now split.
Qed.

Lemma C5_rejects_invalid_upload_witness :
  (Upload.status (fst (Upload.POST upload_env (Upload.Form (Some notes_txt)) ∅))
   = 400
   /\ snd (Upload.POST upload_env (Upload.Form (Some notes_txt)) ∅) = ∅)
  /\ Upload.status (fst (Upload.POST upload_env (Upload.Form None) ∅)) = 400
  /\ Upload.status (fst (Upload.POST upload_env (Upload.TextField "") ∅)) = 400.
Proof.
  split; [|split].
  - apply (C5_rejects_invalid_upload upload_env (Upload.Form (Some notes_txt)) ∅).
    right. right. exists notes_txt. split; [reflexivity|]. right. reflexivity.
  - apply (C5_rejects_invalid_upload upload_env (Upload.Form None) ∅).
    left. reflexivity.
  - apply (C5_rejects_invalid_upload upload_env (Upload.TextField "") ∅).
    right. left. reflexivity.
Defined.

(** ** Upload, then retrieval *)

Lemma shouldCompress_large_png : Upload.shouldCompress large_png = true.
Proof. unfold Upload.shouldCompress. now rewrite size_large_png. Qed.

(** C1, on a PNG of 1048577 bytes: the upload is accepted and the
    retrieval of the returned identifier streams the uploaded bytes, but
    its [Content-Type] is [image/jpeg] while the file was declared
    [image/png]. *)
Theorem C1_large_png_served_as_jpeg `{Zlib} :
  let up := Upload.POST upload_env (Upload.Form (Some large_png)) ∅ in
  let res := Image.GET true "/api/image/0000000000000000000000ff" (snd up) in
  Upload.size large_png <= 5242880
  /\ JS.startsWith "image/" (Upload.type large_png) = true
  /\ fst up = Upload.FileId "0000000000000000000000ff"
  /\ Image.body res = Image.Streamed (GridFS.Bytes (Upload.content large_png))
  /\ Image.header "Content-Type" res = Some (JS.Str "image/jpeg")
  /\ JS.Str "image/jpeg" <> JS.Str (Upload.type large_png).
Proof.
  cbv zeta.
  assert (Hsize : Upload.size large_png <= Upload.maxSize).
  { rewrite size_large_png. unfold Upload.maxSize. lia. }
  assert (Htype : JS.startsWith "image/" (Upload.type large_png) = true)
    by reflexivity.
  pose proof (upload_then_GET upload_env large_png ∅ Hsize Htype eq_refl)
    as Hget.
  change (ObjectId.toString (Upload.fresh upload_env))
    with "0000000000000000000000ff" in Hget.
  change ("/api/image/" +:+ "0000000000000000000000ff")
    with "/api/image/0000000000000000000000ff" in Hget.
  rewrite Hget by (unfold ObjectId_wf; cbn; lia).
  rewrite shouldCompress_large_png.
  split; [rewrite size_large_png; lia|].
  split; [exact Htype|].
  split; [rewrite POST_accepted by first [assumption | reflexivity]; reflexivity|].
  split; [reflexivity|].
  split; [reflexivity|discriminate].
Qed.

(** The part of the round trip that holds for every accepted file: the
    bytes come back as they were uploaded, compressed in between or not,
    and a file of at most 1 MiB comes back with its declared type. *)
Lemma round_trip_bytes `{Zlib} (e : Upload.Env) (f : Upload.File)
    (bk : GridFS.Bucket) :
  Upload.size f <= Upload.maxSize ->
  JS.startsWith "image/" (Upload.type f) = true ->
  Upload.race e = Upload.Finish ->
  ObjectId_wf (Upload.fresh e) ->
  let res := Image.GET true ("/api/image/" +:+ ObjectId.toString (Upload.fresh e))
               (snd (Upload.POST e (Upload.Form (Some f)) bk)) in
  Image.body res = Image.Streamed (GridFS.Bytes (Upload.content f))
  /\ (Upload.size f <= 1048576 ->
      Image.header "Content-Type" res = Some (JS.Str (Upload.type f))).
Proof.
  intros Hsize Htype Hrace Hid. cbv zeta.
  rewrite upload_then_GET by assumption. split; [reflexivity|].
  intros Hsmall. unfold Upload.shouldCompress.
  replace (Upload.size f >? 1024 * 1024) with false by lia. reflexivity.
Qed.

(** C10: for every accepted file longer than 1 MiB the stored document has
    [contentType] ["application/gzip"], its metadata has the four
    properties [uploadedAt], [originalName], [size] and [compressed] and no
    [originalContentType], and the retrieval route serves it with
    [Content-Type] ["image/jpeg"], whatever type the file declared. *)
Theorem C10_compressed_served_as_jpeg `{Zlib} (e : Upload.Env) (f : Upload.File)
    (bk : GridFS.Bucket) :
  1048576 < Upload.size f ->
  Upload.size f <= 5242880 ->
  JS.startsWith "image/" (Upload.type f) = true ->
  Upload.race e = Upload.Finish ->
  ObjectId_wf (Upload.fresh e) ->
  let bk' := snd (Upload.POST e (Upload.Form (Some f)) bk) in
  (exists sf m,
     bk' !! Upload.fresh e = Some sf
     /\ GridFS.contentType sf = Some "application/gzip"
     /\ GridFS.metadata sf = Some m
     /\ dom m = ({[ "uploadedAt"; "originalName"; "size"; "compressed" ]}
                 : gset string)
     /\ m !! "originalContentType" = None)
  /\ Image.header "Content-Type"
       (Image.GET true ("/api/image/" +:+ ObjectId.toString (Upload.fresh e)) bk')
     = Some (JS.Str "image/jpeg").
Proof.
  intros Hbig Hsize Htype Hrace Hid. cbv zeta.
  assert (Hc : Upload.shouldCompress f = true).
  { unfold Upload.shouldCompress. lia. }
  split.
  - rewrite POST_accepted by (unfold Upload.maxSize; auto with zarith).
    cbn [snd]. exists (Upload.storedFile e f), (Upload.uploadMetadata e f).
    split; [apply lookup_insert_eq|].
    cbn [GridFS.contentType GridFS.metadata Upload.storedFile]. rewrite Hc.
    split; [reflexivity|]. split; [reflexivity|].
    split; [apply uploadMetadata_dom|apply uploadMetadata_originalContentType].
  - rewrite upload_then_GET by (unfold Upload.maxSize; auto with zarith).
    now rewrite Hc.
Qed.

Lemma C10_compressed_served_as_jpeg_witness :
  1048576 < Upload.size large_png
  /\ Image.header "Content-Type"
       (Image.GET true
          ("/api/image/" +:+ ObjectId.toString (Upload.fresh upload_env))
          (snd (Upload.POST upload_env (Upload.Form (Some large_png)) ∅)))
     = Some (JS.Str "image/jpeg").
Proof.
  assert (Hbig : 1048576 < Upload.size large_png).
  { rewrite size_large_png. lia. }
  assert (Hsize : Upload.size large_png <= 5242880).
  { rewrite size_large_png. lia. }
  assert (Hid : ObjectId_wf (Upload.fresh upload_env)).
  { unfold ObjectId_wf. cbn. lia. }
  split; [exact Hbig|].
  exact (proj2 (C10_compressed_served_as_jpeg upload_env large_png ∅
                  Hbig Hsize eq_refl eq_refl Hid)).
Defined.

(** ** The retrieval route *)

(** C2, as stated, fails on an identifier that is not an object id: the
    path [/api/image/xyz] has the segment [xyz], which [new ObjectId]
    refuses, and the answer is 404, not 400. *)
Lemma C2_invalid_identifier_is_404 :
  Image.idMatch "/api/image/xyz" = Some "xyz"
  /\ ObjectId.of_string "xyz" = None
  /\ Image.status (Image.GET true "/api/image/xyz" ∅) = 404
  /\ Image.status (Image.GET true "/api/image/xyz" ∅) <> 400.
Proof.
  split; [reflexivity|]. split; [reflexivity|]. split; [reflexivity|].
  discriminate.
Qed.

(** C2, amended: a path with no identifier segment is answered 400; a
    segment that is not 24 hexadecimal characters is answered 404; and when
    the segment is the identifier of a stored object and the store answers,
    the response has status 200, the header [Cache-Control: public,
    max-age=31536000], and streams the stored bytes, inflated when the
    object is flagged as compressed. *)
Theorem C2_retrieval_responses `{Zlib} (storeUp : bool) (pathname : string)
    (bk : GridFS.Bucket) :
  (Image.idMatch pathname = None ->
   Image.status (Image.GET storeUp pathname bk) = 400)
  /\ (forall id,
        Image.idMatch pathname = Some id ->
        ObjectId.of_string id = None ->
        Image.status (Image.GET storeUp pathname bk) = 404)
  /\ (forall id oid sf,
        Image.idMatch pathname = Some id ->
        ObjectId.of_string id = Some oid ->
        bk !! oid = Some sf ->
        storeUp = true ->
        let res := Image.GET storeUp pathname bk in
        Image.status res = 200
        /\ Image.header "Cache-Control" res
           = Some (JS.Str "public, max-age=31536000")
        /\ Image.body res
           = Image.Streamed
               (if Image.isCompressed sf
                then GridFS.pipe_gunzip (GridFS.Bytes (GridFS.data sf))
                else GridFS.Bytes (GridFS.data sf))).
Proof.
  unfold Image.GET. split; [|split].
  - now intros ->.
  - now intros id -> ->.
  - intros id oid sf -> -> Hsf ->. cbn [negb].
    unfold GridFS.findOne, GridFS.openDownloadStream. rewrite Hsf.
    cbv zeta. now split.
Qed.

Lemma C2_retrieval_responses_witness :
  Image.status (Image.GET true "/api/image/" ∅) = 400
  /\ Image.status (Image.GET true "/api/image/xyz" ∅) = 404
  /\ Image.header "Cache-Control"
       (Image.GET true "/api/image/0000000000000000000000ff"
          (snd (Upload.POST upload_env (Upload.Form (Some small_png)) ∅)))
     = Some (JS.Str "public, max-age=31536000").
Proof.
  split; [|split].
  - exact (proj1 (C2_retrieval_responses true "/api/image/" ∅) eq_refl).
  - exact (proj1 (proj2 (C2_retrieval_responses true "/api/image/xyz" ∅))
             "xyz" eq_refl eq_refl).
  - exact (proj1 (proj2
             (proj2 (proj2 (C2_retrieval_responses true
                              "/api/image/0000000000000000000000ff"
                              (snd (Upload.POST upload_env
                                      (Upload.Form (Some small_png)) ∅))))
                "0000000000000000000000ff" 255%N
                (Upload.storedFile upload_env small_png)
                eq_refl eq_refl eq_refl eq_refl))).
Defined.

(** What the route does on a well-formed identifier that the bucket does
    not hold: neither the download stream nor [findOne] throws, so the
    [catch] is not reached; the response is built with status 200 and the
    default type, and its stream fails when read. *)
Lemma GET_unknown_identifier `{Zlib} (id : ObjectId.t) (bk : GridFS.Bucket) :
  ObjectId_wf id ->
  bk !! id = None ->
  Image.GET true ("/api/image/" +:+ ObjectId.toString id) bk
  = {| Image.status := 200;
       Image.headers :=
         [("Content-Type", JS.Str "image/jpeg");
          ("Cache-Control", JS.Str "public, max-age=31536000")];
       Image.body := Image.Streamed GridFS.StreamError |}.
Proof.
  intros Hid Hnone. unfold Image.GET.
  rewrite idMatch_toString, (ObjectId_of_toString _ Hid).
  cbn [negb]. unfold GridFS.findOne, GridFS.openDownloadStream.
  now rewrite Hnone.
Qed.

(** ** The listing collection *)

Lemma insert_desc_Permutation (x : Listing.t) (l : list Listing.t) :
  Permutation (x :: l) (Property.insert_desc x l).
Proof.
  induction l as [|y l IH]; cbn [Property.insert_desc].
  - reflexivity.
  - destruct (Listing.createdAt y <? Listing.createdAt x).
    + reflexivity.
    + rewrite perm_swap. now apply perm_skip.
Qed.

Lemma insert_desc_sorted (x : Listing.t) (l : list Listing.t) :
  StronglySorted newest_first l ->
  StronglySorted newest_first (Property.insert_desc x l).
Proof.
  induction 1 as [|y l Hsorted IH Hall]; cbn [Property.insert_desc].
  - repeat constructor.
  - destruct (Listing.createdAt y <? Listing.createdAt x) eqn:Hlt.
    + constructor; [now constructor|].
      constructor; [unfold newest_first; lia|].
      eapply Forall_impl; [exact Hall|].
      unfold newest_first. intros z Hz. lia.
    + constructor; [exact IH|].
      rewrite <- (insert_desc_Permutation x l).
      constructor; [unfold newest_first; lia | exact Hall].
Qed.

Lemma sort_createdAt_desc_Permutation (l : list Listing.t) :
  Permutation l (Property.sort_createdAt_desc l).
Proof.
  induction l as [|x l IH]; cbn; [reflexivity|].
  rewrite <- insert_desc_Permutation. now apply perm_skip.
Qed.

Lemma sort_createdAt_desc_sorted (l : list Listing.t) :
  StronglySorted newest_first (Property.sort_createdAt_desc l).
Proof.
  induction l as [|x l IH]; cbn; [constructor|].
  now apply insert_desc_sorted.
Qed.

(** Two descending sequences of the same timestamps are the same. *)
Lemma descending_unique (l1 : list Z) : forall l2,
  StronglySorted Z.ge l1 -> StronglySorted Z.ge l2 ->
  Permutation l1 l2 -> l1 = l2.
Proof.
  induction l1 as [|a l1 IH]; intros l2 Hs1 Hs2 Hperm.
  - apply Permutation_nil in Hperm. now subst.
  - destruct l2 as [|b l2].
    { symmetry in Hperm. now apply Permutation_nil in Hperm. }
    apply StronglySorted_inv in Hs1 as [Hs1 Ha].
    apply StronglySorted_inv in Hs2 as [Hs2 Hb].
    assert (Hab : a = b).
    { assert (Hin_a : In a (b :: l2))
        by (eapply Permutation_in; [exact Hperm | now left]).
      assert (Hin_b : In b (a :: l1))
        by (eapply Permutation_in; [symmetry; exact Hperm | now left]).
      rewrite List.Forall_forall in Ha, Hb.
      destruct Hin_a as [-> | Hin_a]; [reflexivity|].
      destruct Hin_b as [-> | Hin_b]; [reflexivity|].
      specialize (Ha _ Hin_b). specialize (Hb _ Hin_a). lia. }
    subst b. f_equal.
    apply IH; [assumption | assumption |].
    now apply Permutation_cons_inv in Hperm.
Qed.

Lemma newest_first_timestamps (l : list Listing.t) :
  StronglySorted newest_first l ->
  StronglySorted Z.ge (map Listing.createdAt l).
Proof.
  induction 1 as [|x l Hsorted IH Hall]; cbn [map]; constructor.
  - exact IH.
  - rewrite Forall_map. eapply Forall_impl; [exact Hall|].
    unfold newest_first. intros z Hz. cbn. lia.
Qed.

(** The timestamps come out in one order, whatever order the documents
    went in. *)
Lemma sort_createdAt_desc_order_independent (c1 c2 : list Listing.t) :
  Permutation c1 c2 ->
  map Listing.createdAt (Property.sort_createdAt_desc c1)
  = map Listing.createdAt (Property.sort_createdAt_desc c2).
Proof.
  intros Hperm.
  apply descending_unique;
    try (apply newest_first_timestamps, sort_createdAt_desc_sorted).
  apply Permutation_map.
  rewrite <- !sort_createdAt_desc_Permutation. exact Hperm.
Qed.

Lemma create_appends (fresh : ObjectId.t) (d : Payload.t (option float))
    (coll : list Listing.t) (doc : Listing.t) :
  fst (Property.create fresh true d coll) = JS.Ok doc ->
  snd (Property.create fresh true d coll) = (coll ++ [doc])%list.
Proof.
  unfold Property.create.
  destruct (Property.validate fresh d); cbn; [|discriminate].
  now intros [= ->].
Qed.

(** C8: the listing read always answers with status 200, and when the
    connection cannot be made or the query fails the body is the empty
    sequence. *)
Theorem C8_list_never_fails (e : Properties.Env) (st : Properties.State) :
  fst (fst (Properties.GET e st)) = 200
  /\ ((exists m, fst (Db.dbConnect (Properties.db e) (Properties.cached st))
                 = JS.Throw m)
      \/ Properties.storeOk e = false ->
      snd (fst (Properties.GET e st)) = []).
Proof.
  unfold Properties.GET, Property.find_sorted.
  destruct (Db.dbConnect (Properties.db e) (Properties.cached st)) as [[c|m] cached'];
    cbn [fst snd].
  - destruct (Properties.storeOk e); cbn [fst snd].
    + split; [reflexivity|]. intros [[m Hm] | Hf]; discriminate.
    + now split.
  - now split.
Qed.

Lemma C8_list_never_fails_witness :
  fst (Properties.GET (server_env db_unset) server_three) = (200, []).
Proof.
  apply injective_projections.
  - exact (proj1 (C8_list_never_fails (server_env db_unset) server_three)).
  - apply (proj2 (C8_list_never_fails (server_env db_unset) server_three)).
    left. eexists. reflexivity.
Defined.

(** C9: when the database answers, the listing read returns the stored
    documents, all of them, ordered by creation timestamp descending; the
    order of the timestamps does not depend on the order of insertion. *)
Theorem C9_list_newest_first (e : Properties.Env) (st : Properties.State) :
  (exists c, fst (Db.dbConnect (Properties.db e) (Properties.cached st)) = JS.Ok c) ->
  Properties.storeOk e = true ->
  exists l,
    fst (Properties.GET e st) = (200, l)
    /\ StronglySorted newest_first l
    /\ Permutation (Properties.collection st) l
    /\ forall inserted,
         Permutation (Properties.collection st) inserted ->
         map Listing.createdAt
           (snd (fst (Properties.GET e
                        {| Properties.cached := Properties.cached st;
                           Properties.collection := inserted |})))
         = map Listing.createdAt l.
Proof.
  intros [c Hc] Hok. unfold Properties.GET, Property.find_sorted.
  cbn [Properties.cached Properties.collection].
  destruct (Db.dbConnect (Properties.db e) (Properties.cached st)) as [r cached'].
  cbn [fst] in Hc. subst r. rewrite Hok. cbn [fst snd].
  exists (Property.sort_createdAt_desc (Properties.collection st)).
  split; [reflexivity|].
  split; [apply sort_createdAt_desc_sorted|].
  split; [apply sort_createdAt_desc_Permutation|].
  intros inserted Hperm. symmetry.
  now apply sort_createdAt_desc_order_independent.
Qed.

Lemma C9_list_newest_first_witness :
  exists l,
    fst (Properties.GET (server_env db_up) server_three) = (200, l)
    /\ map Listing.createdAt l = [3000; 2000; 1000].
Proof.
  destruct (C9_list_newest_first (server_env db_up) server_three)
    as (l & Hget & _).
  - exists tt. reflexivity.
  - reflexivity.
  - exists l. split; [exact Hget|].
    cbv in Hget. injection Hget as <-. reflexivity.
Defined.

(** ** The create route *)

(** When the connection cannot be made the body has not been read yet, and
    the [catch] answers with the mock: its identifier is [mock_] followed
    by the time, and it carries the posted properties as they were. *)
Lemma POST_connect_failure_mocks (e : Properties.Env) (st : Properties.State)
    (p : Payload.t (option float)) (m : string) :
  fst (Db.dbConnect (Properties.db e) (Properties.cached st)) = JS.Throw m ->
  fst (Properties.POST e (Properties.request p) st)
  = JS.Ok (Properties.Mocked
             {| Properties.mock_id :=
                  "mock_" +:+ JS.string_of_Z (Properties.now_id e);
                Properties.mock_data := p;
                Properties.mock_createdAt := Properties.now_createdAt e |}).
Proof.
  intros Hdb. unfold Properties.POST.
  destruct (Db.dbConnect (Properties.db e) (Properties.cached st)) as [r c].
  cbn [fst] in Hdb. subst r. reflexivity.
Qed.

(** When the connection is made and [Property.create] throws, the body has
    been read in the [try]; reading it again in the [catch] throws, and the
    handler rejects. *)
Lemma POST_create_failure_rejects (e : Properties.Env) (st : Properties.State)
    (p : Payload.t (option float)) (c : unit) (m : string) :
  fst (Db.dbConnect (Properties.db e) (Properties.cached st)) = JS.Ok c ->
  fst (Property.create (Properties.fresh e) (Properties.storeOk e) p
         (Properties.collection st)) = JS.Throw m ->
  fst (Properties.POST e (Properties.request p) st)
  = JS.Throw "Body is unusable: Body has already been read".
Proof.
  intros Hdb Hcreate. unfold Properties.POST.
  destruct (Db.dbConnect (Properties.db e) (Properties.cached st)) as [r cached'].
  cbn [fst] in Hdb. subst r. cbn [Properties.json Properties.request
    Properties.bodyUsed Properties.body].
  destruct (Property.create _ _ _ _) as [r coll].
  cbn [fst] in Hcreate. subst r. reflexivity.
Qed.

(** C3, on two submissions whose create fails.  First, a form filled
    without a location while the database is up: the composed payload has
    an empty [location], [Property.create] rejects it, the route's [catch]
    throws on the second read of the body, and the handler of the page ends
    with an alert and no listing record.  Second, a complete form while the
    database has stopped answering after the connection was made: the
    insert fails and the route rejects in the same way. *)
Theorem C3_create_failure_yields_no_record :
  let st := page_start form_without_location Page.LatLng.origin in
  let e := server_env db_up in
  let data := Page.propertyData geocode_down number_of 1700000000000 st
                Page.placeholders in
  let st' := page_start (form_with_location "Kumasi") picked_point in
  let e' := server_env_store_down in
  let data' := Page.propertyData geocode_down number_of 1700000000000 st'
                 Page.placeholders in
  (Page.composed upload_down geocode_down number_of 1700000000000 st = JS.Ok data
   /\ fst (Db.dbConnect (Properties.db e) (Properties.cached server_start))
      = JS.Ok tt
   /\ fst (Property.create (Properties.fresh e) (Properties.storeOk e)
             (Payload.toJSON data) (Properties.collection server_start))
      = JS.Throw "Property validation failed"
   /\ fst (Properties.POST e (Properties.request (Payload.toJSON data)) server_start)
      = JS.Throw "Body is unusable: Body has already been read"
   /\ Page.submit upload_down geocode_down (Page.fetchCreate_of e server_start)
        (JS.Ok []) number_of 1700000000000 st
      = JS.Throw "Failed to create property: Internal Server Error - "
   /\ Page.alerts
        (Page.handleSubmit upload_down geocode_down (Page.fetchCreate_of e server_start)
           (JS.Ok []) number_of 1700000000000 st)
      = ["Error: Failed to create property: Internal Server Error - "])
  /\ (Page.composed upload_down geocode_down number_of 1700000000000 st'
      = JS.Ok data'
      /\ fst (Property.create (Properties.fresh e') (Properties.storeOk e')
                (Payload.toJSON data') (Properties.collection server_connected))
         = JS.Throw "MongoServerSelectionError"
      /\ fst (Properties.POST e' (Properties.request (Payload.toJSON data'))
                server_connected)
         = JS.Throw "Body is unusable: Body has already been read"
      /\ Page.submit upload_down geocode_down
           (Page.fetchCreate_of e' server_connected)
           (JS.Ok []) number_of 1700000000000 st'
         = JS.Throw "Failed to create property: Internal Server Error - ").
Proof.
  cbv zeta. split.
  - split; [reflexivity|]. split; [reflexivity|]. split; [reflexivity|].
    split; [reflexivity|]. split; reflexivity.
  - split; [reflexivity|]. split; [reflexivity|]. split; reflexivity.
Qed.

(** Two creations, the older document posted first, then the listing
    read: the newer one comes first. *)
Example post_twice_then_list :
  let e1 := server_env db_up in
  let e2 := {| Properties.db := db_up;
               Properties.storeOk := true;
               Properties.fresh := 4097%N;
               Properties.now_id := 1700000000123;
               Properties.now_createdAt := 1700000000124 |} in
  let older := Payload.toJSON
    (Page.propertyData geocode_down number_of 1000
       (page_start (form_with_location "Kumasi") picked_point) Page.placeholders) in
  let newer := Payload.toJSON
    (Page.propertyData geocode_down number_of 2000
       (page_start (form_with_location "Accra") picked_point) Page.placeholders) in
  let s1 := snd (Properties.POST e1 (Properties.request older) server_start) in
  let s2 := snd (Properties.POST e2 (Properties.request newer) s1) in
  map Listing.createdAt (Properties.collection s2) = [1000; 2000]
  /\ fst (fst (Properties.GET e1 s2)) = 200
  /\ map Listing.location (snd (fst (Properties.GET e1 s2))) = ["Accra"; "Kumasi"].
Proof. cbv zeta. split; [reflexivity|]. split; reflexivity. Qed.

(** ** White space *)

Lemma trimEnd_empty_iff_blank (s : string) :
  JS.trimEnd s = "" <-> blank s = true.
Proof.
  induction s as [|c s IH]; cbn [JS.trimEnd blank]; [easy|].
  destruct (JS.trimEnd s) eqn:Hend.
  - destruct (JS.is_space c); cbn [andb].
    + rewrite <- IH. easy.
    + easy.
  - rewrite andb_true_iff, <- IH. split; [discriminate | intros [_ Hs]; discriminate].
Qed.

Lemma blank_trimStart (s : string) : blank (JS.trimStart s) = blank s.
Proof.
  induction s as [|c s IH]; cbn [JS.trimStart blank]; [reflexivity|].
  destruct (JS.is_space c) eqn:Hc; cbn [andb blank].
  - exact IH.
  - now rewrite Hc.
Qed.

(** [trim] leaves nothing exactly of the texts that are blank. *)
Lemma trim_empty_iff_blank (s : string) : JS.trim s = "" <-> blank s = true.
Proof.
  unfold JS.trim. now rewrite trimEnd_empty_iff_blank, blank_trimStart.
Qed.

(** ** The submit handler *)

Section Submission.

Variable fetchUpload : Upload.File -> JS.Outcome Upload.Response.
Variable fetchGeocode : string -> JS.Outcome (list Page.GeoEntry.t).
Variable NumberOfString : string -> float.
Variable now : Z.

Abbreviation composed := (Page.composed fetchUpload fetchGeocode NumberOfString now).
Abbreviation coordinates := (Page.coordinates fetchGeocode NumberOfString).

Lemma composed_coordinates (st : Page.State) (p : Payload.t float) :
  composed st = JS.Ok p ->
  (Payload.lat p, Payload.lng p)
  = coordinates (Page.selectedLocation st)
      (Page.FormData.location (Page.form st)).
Proof.
  unfold Page.composed.
  destruct (Page.imageIds fetchUpload (Page.form st)) as [ids|m]; [|discriminate].
  intros [= <-]. unfold Page.propertyData.
  now destruct (Page.coordinates _ _ _ _).
Qed.

(** C6: in the composed listing, a selected point other than [(0,0)] is
    used as it is, whatever the location text, so the point
    [(5.55, -0.20)] gives [lat = 5.55] and [lng = -0.20]; with no point
    selected and a location text that is not blank, the first geocoding
    result gives the coordinates; and when the geocoder returns no result
    or fails, the coordinates stay at zero. *)
Theorem C6_coordinate_resolution (st : Page.State) (p : Payload.t float) :
  composed st = JS.Ok p ->
  let sel := Page.selectedLocation st in
  let text := Page.FormData.location (Page.form st) in
  (JS.is_zero (Page.LatLng.lat sel) && JS.is_zero (Page.LatLng.lng sel) = false ->
   Payload.lat p = Page.LatLng.lat sel /\ Payload.lng p = Page.LatLng.lng sel)
  /\ (sel = picked_point ->
      Payload.lat p = 5.55%float /\ Payload.lng p = (-0.20)%float)
  /\ (JS.is_zero (Page.LatLng.lat sel) && JS.is_zero (Page.LatLng.lng sel) = true ->
      blank text = false ->
      forall g rest,
        fetchGeocode text = JS.Ok (g :: rest) ->
        Payload.lat p = NumberOfString (Page.GeoEntry.lat g)
        /\ Payload.lng p = NumberOfString (Page.GeoEntry.lon g))
  /\ (JS.is_zero (Page.LatLng.lat sel) && JS.is_zero (Page.LatLng.lng sel) = true ->
      (fetchGeocode text = JS.Ok [] \/ exists m, fetchGeocode text = JS.Throw m) ->
      JS.is_zero (Payload.lat p) = true /\ JS.is_zero (Payload.lng p) = true).
Proof.
  intros Hp. apply composed_coordinates in Hp. cbv zeta.
  unfold Page.coordinates in Hp.
  split; [|split; [|split]].
  - intros Hsel. rewrite Hsel in Hp. cbn [andb] in Hp. now inversion Hp.
  - intros Hsel. rewrite Hsel in Hp. now inversion Hp.
  - intros Hzero Htext g rest Hgeo. rewrite Hzero, Hgeo in Hp.
    assert (Hne : JS.nonempty (JS.trim (Page.FormData.location (Page.form st)))
                  = true).
    { unfold JS.nonempty. apply negb_true_iff, String.eqb_neq.
      rewrite trim_empty_iff_blank. congruence. }
    rewrite Hne in Hp. cbn [andb] in Hp. now inversion Hp.
  - intros Hzero Hgeo. rewrite Hzero in Hp.
    apply andb_true_iff in Hzero as [Hlat Hlng].
    destruct (JS.nonempty _); cbn [andb] in Hp.
    + destruct Hgeo as [Hgeo | [m Hgeo]]; rewrite Hgeo in Hp;
        injection Hp as -> ->; now split.
    + injection Hp as -> ->; now split.
Qed.

(** C7: when no upload produced an identifier, in particular when no file
    is selected, the payload is composed and its image identifiers are
    the three placeholders, in this order. *)
Theorem C7_placeholder_images (st : Page.State) :
  Page.FormData.files (Page.form st) = []
  \/ Page.all (Page.uploadPromises fetchUpload (Page.FormData.files (Page.form st)))
     = JS.Ok [] ->
  exists p,
    composed st = JS.Ok p
    /\ Payload.images p = ["placeholder1"; "placeholder2"; "placeholder3"].
Proof.
  intros Hempty.
  assert (Hids : Page.imageIds fetchUpload (Page.form st)
                 = JS.Ok Page.placeholders).
  { unfold Page.imageIds. destruct Hempty as [-> | Hall]; [reflexivity|].
    rewrite Hall. now destruct (0 <? _). }
  unfold Page.composed. rewrite Hids. eexists. split; [reflexivity|].
  unfold Page.propertyData. now destruct (Page.coordinates _ _ _ _).
Qed.

End Submission.

Lemma C6_coordinate_resolution_witness :
  (exists p,
     Page.composed upload_down geocode_one number_of 1700000000000
       (page_start (form_with_location "Kumasi") picked_point) = JS.Ok p
     /\ Payload.lat p = 5.55%float /\ Payload.lng p = (-0.20)%float)
  /\ (exists p,
        Page.composed upload_down geocode_one number_of 1700000000000
          (page_start (form_with_location "Kumasi") Page.LatLng.origin) = JS.Ok p
        /\ Payload.lat p = 6.5%float /\ Payload.lng p = (-1.625)%float)
  /\ (exists p,
        Page.composed upload_down geocode_down number_of 1700000000000
          (page_start (form_with_location "Kumasi") Page.LatLng.origin) = JS.Ok p
        /\ JS.is_zero (Payload.lat p) = true /\ JS.is_zero (Payload.lng p) = true).
Proof.
  split; [|split]; eexists; (split; [reflexivity|]).
  - exact (proj1 (proj2
      (C6_coordinate_resolution upload_down geocode_one number_of 1700000000000
         (page_start (form_with_location "Kumasi") picked_point) _ eq_refl))
      eq_refl).
  - refine (proj1 (proj2 (proj2
      (C6_coordinate_resolution upload_down geocode_one number_of 1700000000000
         (page_start (form_with_location "Kumasi") Page.LatLng.origin) _ eq_refl)))
      eq_refl eq_refl _ _ eq_refl).
  - refine (proj2 (proj2 (proj2
      (C6_coordinate_resolution upload_down geocode_down number_of 1700000000000
         (page_start (form_with_location "Kumasi") Page.LatLng.origin) _ eq_refl)))
      eq_refl _).
    right. eexists. reflexivity.
Defined.

Lemma C7_placeholder_images_witness :
  exists p,
    Page.composed upload_down geocode_one number_of 1700000000000
      (page_start (form_with_location "Kumasi") picked_point) = JS.Ok p
    /\ Payload.images p = ["placeholder1"; "placeholder2"; "placeholder3"].
Proof.
  apply (C7_placeholder_images upload_down geocode_one number_of 1700000000000
           (page_start (form_with_location "Kumasi") picked_point)).
  left. reflexivity.
Defined.

(** The scenario end to end: the point picked on the map reaches the
    stored document, whatever was typed as location. *)
Example picked_point_is_stored :
  exists data doc,
    Page.submit upload_down geocode_one
      (Page.fetchCreate_of (server_env db_up) server_start) (JS.Ok [])
      number_of 1700000000000
      (page_start (form_with_location "Kumasi") picked_point)
    = JS.Ok (data, Properties.Created doc, [])
    /\ Listing.lat doc = 5.55%float
    /\ Listing.lng doc = (-0.20)%float
    /\ Listing.images doc = ["placeholder1"; "placeholder2"; "placeholder3"].
Proof.
  do 2 eexists. split; [reflexivity|]. split; [reflexivity|]. split; reflexivity.
Qed.

(** * Further properties of the code *)

(** ** The connection cache *)

Lemma dbConnect_again (e e' : Db.Env) (cached cached' : Db.Cached)
    (r : JS.Outcome unit) :
  Db.uri_set e = true ->
  Db.uri_set e' = true ->
  Db.dbConnect e cached = (r, cached') ->
  Db.dbConnect e' cached' = (r, cached').
Proof.
  unfold Db.dbConnect. intros -> ->. cbn [negb].
  destruct (Db.conn cached) as [c|] eqn:Hconn.
  - intros [= <- <-]. now rewrite Hconn.
  - destruct (match Db.promise cached with Some p => p | None => Db.connect e end)
      as [c|m]; intros [= <- <-]; reflexivity.
Qed.

(** X1: the first attempt that settles decides every later call of the
    process: a second [dbConnect] gives the answer of the first, the
    connection or the error of the failed attempt, and leaves the cache as
    the first left it, whatever [mongoose.connect] would do now.  A
    connection is never made twice, and a failed attempt is never retried. *)
Theorem dbConnect_settles_once (e e' : Db.Env) (cached : Db.Cached) :
  Db.uri_set e = true ->
  Db.uri_set e' = true ->
  Db.dbConnect e' (snd (Db.dbConnect e cached)) = Db.dbConnect e cached.
Proof.
  intros He He'.
  destruct (Db.dbConnect e cached) as [r cached'] eqn:Hdb.
  exact (dbConnect_again e e' cached cached' r He He' Hdb).
Qed.

Lemma dbConnect_settles_once_witness :
  Db.dbConnect db_up (snd (Db.dbConnect db_unreachable Db.initial))
  = (JS.Throw "MongooseServerSelectionError",
     {| Db.conn := None;
        Db.promise := Some (JS.Throw "MongooseServerSelectionError") |}).
Proof.
  rewrite (dbConnect_settles_once db_unreachable db_up Db.initial eq_refl eq_refl).
  reflexivity.
Defined.

(** X2: after a listing read whose connection attempt failed, every later
    read of the process answers 200 with the empty sequence and every later
    create answers with a mock, whatever the collection holds and even if
    the database can be reached again. *)
Theorem failed_connect_degrades_for_good (e e' : Properties.Env)
    (st : Properties.State) (m : string) (coll : list Listing.t)
    (p : Payload.t (option float)) :
  Db.uri_set (Properties.db e) = true ->
  Db.uri_set (Properties.db e') = true ->
  fst (Db.dbConnect (Properties.db e) (Properties.cached st)) = JS.Throw m ->
  let st' := {| Properties.cached := Properties.cached (snd (Properties.GET e st));
                Properties.collection := coll |} in
  fst (Properties.GET e' st') = (200, [])
  /\ exists mock, fst (Properties.POST e' (Properties.request p) st')
                  = JS.Ok (Properties.Mocked mock)
                  /\ Properties.mock_data mock = p.
Proof.
  intros He He' Hfail. cbv zeta.
  destruct (Db.dbConnect (Properties.db e) (Properties.cached st))
    as [r cached'] eqn:Hdb.
  cbn [fst] in Hfail. subst r.
  pose proof (dbConnect_again _ _ _ _ _ He He' Hdb) as Hagain.
  assert (Hcached : Properties.cached (snd (Properties.GET e st)) = cached').
  { unfold Properties.GET. now rewrite Hdb. }
  rewrite Hcached. split.
  - unfold Properties.GET. cbn [Properties.cached]. now rewrite Hagain.
  - eexists. split.
    + apply POST_connect_failure_mocks with (m := m).
      cbn [Properties.cached]. now rewrite Hagain.
    + reflexivity.
Qed.

Lemma failed_connect_degrades_for_good_witness :
  fst (Properties.GET (server_env db_up)
         {| Properties.cached :=
              Properties.cached
                (snd (Properties.GET (server_env db_unreachable) server_start));
            Properties.collection := [listing_at 1%N 2000] |})
  = (200, []).
Proof.
  exact (proj1 (failed_connect_degrades_for_good (server_env db_unreachable)
                  (server_env db_up) server_start
                  "MongooseServerSelectionError" [listing_at 1%N 2000]
                  (Payload.toJSON
                     (Page.propertyData geocode_down number_of 1000
                        (page_start (form_with_location "Kumasi") picked_point)
                        Page.placeholders))
                  eq_refl eq_refl eq_refl)).
Defined.

(** ** The create route *)

(** X3: what decides the answer of the create route to a request whose
    body is JSON and unread.  The mock is answered exactly when the
    connection fails; the stored document exactly when the connection is
    made, the payload passes the schema and the database accepts the insert;
    and the handler rejects exactly when the connection is made and the
    payload fails the schema or the insert fails. *)
Theorem POST_outcomes (e : Properties.Env) (st : Properties.State)
    (p : Payload.t (option float)) :
  let connected :=
    exists c, fst (Db.dbConnect (Properties.db e) (Properties.cached st))
              = JS.Ok c in
  let answer := fst (Properties.POST e (Properties.request p) st) in
  ((exists mock, answer = JS.Ok (Properties.Mocked mock)) <-> ~ connected)
  /\ (forall doc,
        answer = JS.Ok (Properties.Created doc)
        <-> connected
            /\ Property.validate (Properties.fresh e) p = Some doc
            /\ Properties.storeOk e = true)
  /\ ((exists msg, answer = JS.Throw msg)
      <-> connected
          /\ (Property.validate (Properties.fresh e) p = None
              \/ Properties.storeOk e = false)).
Proof.
  cbv zeta. unfold Properties.POST, Property.create.
  destruct (Db.dbConnect (Properties.db e) (Properties.cached st))
    as [[c|m] cached']; cbn [fst Properties.json Properties.request
                              Properties.bodyUsed Properties.body
                              Properties.POST_catch].
  - assert (Hconn : exists c0 : unit, JS.Ok c = JS.Ok c0) by now exists c.
    destruct (Property.validate (Properties.fresh e) p) as [doc0|];
      [destruct (Properties.storeOk e)|]; cbn [fst].
    + split; [|split].
      * split; [intros [mock [=]] | intros Hn; now destruct Hn].
      * intros doc. split; [intros [= ->]; auto | intros (_ & [= ->] & _); auto].
      * split; [intros [msg [=]] | intros (_ & [[=] | [=]])].
    + split; [|split].
      * split; [intros [mock [=]] | intros Hn; now destruct Hn].
      * intros doc. split; [intros [=] | intros (_ & _ & [=])].
      * split; [auto | intros _; eauto].
    + split; [|split].
      * split; [intros [mock [=]] | intros Hn; now destruct Hn].
      * intros doc. split; [intros [=] | intros (_ & [=] & _)].
      * split; [auto | intros _; eauto].
  - assert (Hnot : ~ exists c0 : unit, JS.Throw m = JS.Ok c0)
      by (intros [c0 [=]]).
    split; [|split].
    + split; [auto | intros _; eauto].
    + intros doc. split; [intros [=] | intros (Hc & _); now destruct Hnot].
    + split; [intros [msg [=]] | intros (Hc & _); now destruct Hnot].
Qed.

Lemma POST_collection_eq (e : Properties.Env) (req : Properties.Request)
    (st : Properties.State) :
  Properties.collection (snd (Properties.POST e req st))
  = match fst (Properties.POST e req st) with
    | JS.Ok (Properties.Created doc) => (Properties.collection st ++ [doc])%list
    | _ => Properties.collection st
    end.
Proof.
  unfold Properties.POST, Properties.POST_catch, Property.create.
  destruct (Db.dbConnect (Properties.db e) (Properties.cached st))
    as [[c|m] cached']; cbn [fst snd Properties.collection].
  - destruct (Properties.json req) as [[data|msg] req'] eqn:Hjson;
      cbn [fst snd Properties.collection].
    + destruct (Property.validate (Properties.fresh e) data) as [doc|];
        [destruct (Properties.storeOk e)|];
        cbn [fst snd Properties.collection];
        try reflexivity;
        now destruct (fst (Properties.json req')) as [d|msg].
    + now destruct (fst (Properties.json req')) as [d|msg'].
  - now destruct (fst (Properties.json req)) as [d|msg].
Qed.

(** X4: the create route changes the collection only by appending the
    document it answers with.  For every request, read or not, JSON or not:
    when it answers with a stored document, the collection is the former
    one followed by that document; when it answers with a mock or rejects,
    the collection is as it was, so a mock is in no later listing. *)
Theorem POST_appends_or_keeps (e : Properties.Env) (req : Properties.Request)
    (st : Properties.State) :
  (forall doc,
     fst (Properties.POST e req st) = JS.Ok (Properties.Created doc) ->
     Properties.collection (snd (Properties.POST e req st))
     = (Properties.collection st ++ [doc])%list)
  /\ (forall mock,
        fst (Properties.POST e req st) = JS.Ok (Properties.Mocked mock) ->
        Properties.collection (snd (Properties.POST e req st))
        = Properties.collection st)
  /\ (forall msg,
        fst (Properties.POST e req st) = JS.Throw msg ->
        Properties.collection (snd (Properties.POST e req st))
        = Properties.collection st).
Proof.
  pose proof (POST_collection_eq e req st) as Hcoll.
  split; [|split]; intros x Hx; now rewrite Hx in Hcoll.
Qed.

(** X5: a listing that the create route answers with is in the next
    listing read, together with the listings that were there, newest first,
    provided the database answers the read. *)
Theorem created_listing_is_listed (e e' : Properties.Env)
    (p : Payload.t (option float)) (st : Properties.State) (doc : Listing.t) :
  fst (Properties.POST e (Properties.request p) st)
  = JS.Ok (Properties.Created doc) ->
  Db.uri_set (Properties.db e') = true ->
  Properties.storeOk e' = true ->
  exists l,
    fst (Properties.GET e' (snd (Properties.POST e (Properties.request p) st)))
    = (200, l)
    /\ In doc l
    /\ Permutation (doc :: Properties.collection st) l
    /\ StronglySorted newest_first l.
Proof.
  intros Hcreated Huri Hok.
  pose proof (POST_collection_eq e (Properties.request p) st) as Hcoll.
  rewrite Hcreated in Hcoll.
  assert (Hconn : exists c,
             Db.conn (Properties.cached
                        (snd (Properties.POST e (Properties.request p) st)))
             = Some c).
  { revert Hcreated. unfold Properties.POST, Db.dbConnect.
    destruct (negb (Db.uri_set (Properties.db e))).
    { cbn. discriminate. }
    destruct (Db.conn (Properties.cached st)) as [c|] eqn:Hc.
    - cbn [fst snd Properties.json Properties.request Properties.bodyUsed
             Properties.body].
      destruct (Property.create _ _ _ _) as [[d|msg] coll]; cbn;
        [eauto | discriminate].
    - destruct (match Db.promise (Properties.cached st) with
                | Some p0 => p0 | None => Db.connect (Properties.db e) end)
        as [c|msg].
      + cbn [fst snd Properties.json Properties.request Properties.bodyUsed
               Properties.body].
        destruct (Property.create _ _ _ _) as [[d|msg] coll]; cbn;
          [eauto | discriminate].
      + cbn. discriminate. }
  destruct Hconn as [c Hc].
  exists (Property.sort_createdAt_desc
            (Properties.collection st ++ [doc])%list).
  assert (Hperm : Permutation (doc :: Properties.collection st)
                    (Property.sort_createdAt_desc
                       (Properties.collection st ++ [doc])%list)).
  { rewrite <- sort_createdAt_desc_Permutation.
    apply Permutation_cons_append. }
  split; [|split; [|split]].
  - unfold Properties.GET, Db.dbConnect. rewrite Huri, Hc. cbn [negb].
    unfold Property.find_sorted. now rewrite Hok, Hcoll.
  - eapply Permutation_in; [exact Hperm | now left].
  - exact Hperm.
  - apply sort_createdAt_desc_sorted.
Qed.

Lemma created_listing_is_listed_witness :
  let p := Payload.toJSON
             (Page.propertyData geocode_down number_of 1500
                (page_start (form_with_location "Kumasi") picked_point)
                Page.placeholders) in
  exists l,
    fst (Properties.GET (server_env db_up)
           (snd (Properties.POST (server_env db_up) (Properties.request p)
                   server_three)))
    = (200, l)
    /\ map Listing.createdAt l = [3000; 2000; 1500; 1000].
Proof.
  cbv zeta.
  destruct (created_listing_is_listed (server_env db_up) (server_env db_up)
              (Payload.toJSON
                 (Page.propertyData geocode_down number_of 1500
                    (page_start (form_with_location "Kumasi") picked_point)
                    Page.placeholders))
              server_three _ eq_refl eq_refl eq_refl) as (l & Hget & _).
  exists l. split; [exact Hget|].
  cbv in Hget. injection Hget as <-. reflexivity.
Defined.

(** ** From the form to the schema *)

Lemma json_number_finite (x : float) :
  finite x -> exists y, Payload.json_number x = Some y.
Proof.
  unfold finite, Payload.json_number. intros ->.
  destruct (PrimFloat.eqb x 0); eauto.
Qed.

Section FormToSchema.

Variable fetchUpload : Upload.File -> JS.Outcome Upload.Response.
Variable fetchGeocode : string -> JS.Outcome (list Page.GeoEntry.t).
Variable NumberOfString : string -> float.
Variable now : Z.

(** X6: a form that the submit button lets through (a name and a
    description), whose composed payload has a location label and finite
    coordinates and price, passes the schema whatever identifier the
    document gets: the document has the name, description, label, image
    identifiers and timestamp of the payload, and a numeric field left
    blank among beds, baths and area is stored as [0]. *)
Theorem enabled_form_passes_schema (st : Page.State) (data : Payload.t float)
    (fresh : ObjectId.t) :
  Page.composed fetchUpload fetchGeocode NumberOfString now st = JS.Ok data ->
  Page.submitDisabled st = false ->
  Payload.location data <> "" ->
  finite (Payload.lat data) ->
  finite (Payload.lng data) ->
  finite (Payload.price data) ->
  exists doc,
    Property.validate fresh (Payload.toJSON data) = Some doc
    /\ Listing.name doc = Page.FormData.name (Page.form st)
    /\ Listing.description doc = Page.FormData.description (Page.form st)
    /\ Listing.location doc = Payload.location data
    /\ Listing.images doc = Payload.images data
    /\ Listing.createdAt doc = now
    /\ (Page.FormData.beds (Page.form st) = Page.Blank ->
        Listing.beds doc = Some 0%float)
    /\ (Page.FormData.baths (Page.form st) = Page.Blank ->
        Listing.baths doc = Some 0%float)
    /\ (Page.FormData.area (Page.form st) = Page.Blank ->
        Listing.area doc = Some 0%float).
Proof.
  intros Hdata Henabled Hloc Hlat Hlng Hprice.
  unfold Page.submitDisabled in Henabled.
  apply orb_false_iff in Henabled as [Henabled Hdesc].
  apply orb_false_iff in Henabled as [_ Hname].
  apply negb_false_iff in Hname, Hdesc.
  assert (Hfields :
    Payload.name data = Page.FormData.name (Page.form st)
    /\ Payload.description data = Page.FormData.description (Page.form st)
    /\ Payload.createdAt data = now
    /\ Payload.beds data = Page.Number (Page.FormData.beds (Page.form st))
    /\ Payload.baths data = Page.Number (Page.FormData.baths (Page.form st))
    /\ Payload.area data = Page.Number (Page.FormData.area (Page.form st))).
  { revert Hdata. unfold Page.composed.
    destruct (Page.imageIds fetchUpload (Page.form st)) as [ids|m]; [|discriminate].
    intros [= <-]. unfold Page.propertyData.
    destruct (Page.coordinates _ _ _ _). cbn. repeat split. }
  destruct Hfields as (Hn & Hd & Hc & Hbeds & Hbaths & Harea).
  destruct (json_number_finite _ Hlat) as [la Hla].
  destruct (json_number_finite _ Hlng) as [lo Hlo].
  destruct (json_number_finite _ Hprice) as [pr Hpr].
  assert (Hl : JS.nonempty (Payload.location data) = true).
  { unfold JS.nonempty. now apply negb_true_iff, String.eqb_neq. }
  unfold Property.validate, Property.required_string.
  cbn [Payload.toJSON Payload.name Payload.location Payload.description
       Payload.lat Payload.lng Payload.price Payload.images Payload.createdAt
       Payload.beds Payload.baths Payload.area].
  rewrite Hn, Hd, Hname, Hdesc, Hl, Hla, Hlo, Hpr.
  cbn [mbind option_bind].
  eexists. split; [reflexivity|].
  cbn [Listing.name Listing.description Listing.location Listing.images
       Listing.createdAt Listing.beds Listing.baths Listing.area].
  repeat (split; [reflexivity|]).
  split; [exact Hc|].
  rewrite Hbeds, Hbaths, Harea.
  split; [|split]; intros ->; reflexivity.
Qed.

End FormToSchema.

Lemma enabled_form_passes_schema_witness :
  exists doc,
    Property.validate 4096%N
      (Payload.toJSON
         (Page.propertyData geocode_one number_of 1700000000000
            (page_start (form_with_location "Kumasi") picked_point)
            Page.placeholders))
    = Some doc
    /\ Listing.name doc = "Villa".
Proof.
  destruct (enabled_form_passes_schema upload_down geocode_one number_of
              1700000000000
              (page_start (form_with_location "Kumasi") picked_point)
              _ 4096%N eq_refl eq_refl) as (doc & Hv & Hn & _).
  - discriminate.
  - reflexivity.
  - reflexivity.
  - reflexivity.
  - exists doc. split; [exact Hv | exact Hn].
Defined.

(** ** Identifiers and paths *)

Lemma hex_digit_lower (c : ascii) (d : N) :
  ObjectId.hex_digit c = Some d ->
  ObjectId.hex_char d = lower_char c /\ (d < 16)%N.
Proof.
  destruct c as [[] [] [] [] [] [] [] []]; vm_compute; intros Hd;
    try discriminate Hd; injection Hd as <-; split; reflexivity.
Qed.

Lemma hex_digit_lower_char (c : ascii) :
  ObjectId.hex_digit (lower_char c) = ObjectId.hex_digit c.
Proof. destruct c as [[] [] [] [] [] [] [] []]; reflexivity. Qed.

Lemma lower_char_slash (c : ascii) :
  Ascii.eqb (lower_char c) "/" = Ascii.eqb c "/".
Proof. destruct c as [[] [] [] [] [] [] [] []]; reflexivity. Qed.

Lemma parse_hex_value (s : string) : forall acc n,
  ObjectId.parse_hex s acc = Some n ->
  exists v, (n = acc * 16 ^ N.of_nat (String.length s) + v
             /\ v < 16 ^ N.of_nat (String.length s))%N.
Proof.
  induction s as [|c s IH]; intros acc n; cbn [ObjectId.parse_hex String.length].
  - intros [= <-]. exists 0%N. change (16 ^ N.of_nat 0)%N with 1%N. lia.
  - destruct (ObjectId.hex_digit c) as [d|] eqn:Hd; [|discriminate].
    intros Hparse. destruct (IH _ _ Hparse) as (v & -> & Hv).
    destruct (hex_digit_lower _ _ Hd) as [_ Hd16].
    exists (d * 16 ^ N.of_nat (String.length s) + v)%N.
    rewrite Nat2N.inj_succ, N.pow_succ_r'. split; nia.
Qed.

Lemma hex_digits_lead (k : nat) : forall n rest,
  ObjectId.hex_digits (S k) n rest
  = String (ObjectId.hex_char ((n / 16 ^ N.of_nat k) mod 16)%N)
      (ObjectId.hex_digits k n rest).
Proof.
  induction k as [|k IH]; intros n rest.
  - cbn [ObjectId.hex_digits]. change (16 ^ N.of_nat 0)%N with 1%N.
    now rewrite N.div_1_r.
  - change (ObjectId.hex_digits (S (S k)) n rest)
      with (ObjectId.hex_digits (S k) (n / 16)%N
              (String (ObjectId.hex_char (n mod 16)%N) rest)).
    rewrite IH. cbn [ObjectId.hex_digits].
    rewrite Nat2N.inj_succ, N.pow_succ_r', N.Div0.div_div. reflexivity.
Qed.

Lemma hex_digits_of_parse (s : string) : forall acc n rest,
  ObjectId.parse_hex s acc = Some n ->
  ObjectId.hex_digits (String.length s) n rest = toLowerCase s +:+ rest.
Proof.
  induction s as [|c s IH]; intros acc n rest;
    cbn [ObjectId.parse_hex String.length toLowerCase].
  - reflexivity.
  - destruct (ObjectId.hex_digit c) as [d|] eqn:Hd; [|discriminate].
    intros Hparse. rewrite hex_digits_lead, (IH _ _ rest Hparse).
    destruct (parse_hex_value _ _ _ Hparse) as (v & -> & Hv).
    destruct (hex_digit_lower _ _ Hd) as [Hchar Hd16].
    assert (Hlead : (((acc * 16 + d) * 16 ^ N.of_nat (String.length s) + v)
                     / 16 ^ N.of_nat (String.length s) mod 16 = d)%N).
    { rewrite N.div_add_l by (apply N.pow_nonzero; discriminate).
      rewrite (N.div_small v) by exact Hv.
      rewrite N.add_0_r, N.add_comm, N.Div0.mod_add.
      now apply N.mod_small. }
    rewrite Hlead, Hchar. reflexivity.
Qed.

Lemma string_app_empty (t : string) : t +:+ "" = t.
Proof.
  induction t as [|c t IH]; [reflexivity|].
  change (String c t +:+ "") with (String c (t +:+ "")). now rewrite IH.
Qed.

(** X7: identifiers and their text are in step.  The text of a twelve-byte
    identifier is read back as that identifier; and whenever a text is
    accepted as an identifier, the identifier is twelve bytes and its own
    text is the accepted one in lower case. *)
Theorem ObjectId_text_round_trip :
  (forall id, ObjectId_wf id ->
              ObjectId.of_string (ObjectId.toString id) = Some id)
  /\ (forall s id, ObjectId.of_string s = Some id ->
                   ObjectId_wf id /\ ObjectId.toString id = toLowerCase s).
Proof.
  split.
  - intros id Hid. unfold ObjectId.of_string.
    rewrite ObjectId_toString_length. cbn [Nat.eqb].
    unfold ObjectId.toString. rewrite parse_hex_digits.
    cbn [ObjectId.parse_hex]. f_equal.
    change (16 ^ N.of_nat 24)%N with (2 ^ 96)%N.
    rewrite N.mod_small by exact Hid. lia.
  - intros s id. unfold ObjectId.of_string.
    destruct (Nat.eqb (String.length s) 24) eqn:Hlen; [|discriminate].
    apply Nat.eqb_eq in Hlen. intros Hparse. split.
    + destruct (parse_hex_value _ _ _ Hparse) as (v & -> & Hv).
      rewrite Hlen in Hv. unfold ObjectId_wf.
      change (16 ^ N.of_nat 24)%N with (2 ^ 96)%N in Hv. lia.
    + unfold ObjectId.toString. rewrite <- Hlen.
      rewrite (hex_digits_of_parse _ _ _ EmptyString Hparse).
      apply string_app_empty.
Qed.

Lemma take_segment_slash_free (s : string) :
  slash_free (Image.take_segment s).
Proof.
  unfold slash_free.
  induction s as [|c s IH]; cbn [Image.take_segment]; [intros []|].
  destruct (Ascii.eqb c "/") eqn:Hc; [intros []|].
  cbn [list_ascii_of_string]. intros [Heq | Hin]; [|exact (IH Hin)].
  subst c. discriminate Hc.
Qed.

Lemma match_here_segment (p seg : string) :
  Image.match_here p = Some seg -> seg <> "" /\ slash_free seg.
Proof.
  unfold Image.match_here.
  destruct (Image.strip_prefix "/api/image/" p) as [rest|]; [|discriminate].
  pose proof (take_segment_slash_free rest) as Hfree.
  destruct (Image.take_segment rest) as [|c t]; [discriminate|].
  intros [= <-]. split; [discriminate | exact Hfree].
Qed.

(** X8: whatever the path, the identifier that the route takes from it is
    not empty and holds no [/]. *)
Theorem idMatch_segment (pathname id : string) :
  Image.idMatch pathname = Some id -> id <> "" /\ slash_free id.
Proof.
  induction pathname as [|c p IH]; cbn [Image.idMatch].
  - destruct (Image.match_here "") as [seg|] eqn:Hhere; [|discriminate].
    intros [= <-]. exact (match_here_segment _ _ Hhere).
  - destruct (Image.match_here (String c p)) as [seg|] eqn:Hhere.
    + intros [= <-]. exact (match_here_segment _ _ Hhere).
    + exact IH.
Qed.

Lemma idMatch_segment_witness :
  "abc" <> "" /\ slash_free "abc".
Proof.
  exact (idMatch_segment "/files/api/image/abc/large" "abc" eq_refl).
Defined.

Lemma take_segment_app (s tail : string) :
  slash_free s ->
  tail = "" \/ (exists t, tail = String "/" t) ->
  Image.take_segment (s +:+ tail) = s.
Proof.
  unfold slash_free. intros Hfree Htail.
  induction s as [|c s IH].
  - destruct Htail as [-> | [t ->]]; reflexivity.
  - change (String c s +:+ tail) with (String c (s +:+ tail)).
    cbn [Image.take_segment list_ascii_of_string] in *.
    destruct (Ascii.eqb c "/") eqn:Hc.
    + apply Ascii.eqb_eq in Hc. subst c. destruct Hfree. now left.
    + rewrite IH; [reflexivity|]. intros Hin. apply Hfree. now right.
Qed.

Lemma idMatch_image_path (s tail : string) :
  s <> "" ->
  slash_free s ->
  tail = "" \/ (exists t, tail = String "/" t) ->
  Image.idMatch ("/api/image/" +:+ s +:+ tail) = Some s.
Proof.
  intros Hne Hfree Htail.
  assert (Hhere : Image.match_here ("/api/image/" +:+ s +:+ tail) = Some s).
  { unfold Image.match_here.
    change (Image.strip_prefix "/api/image/" ("/api/image/" +:+ s +:+ tail))
      with (Some (s +:+ tail)).
    cbv beta iota. rewrite take_segment_app by assumption.
    destruct s; [now destruct Hne | reflexivity]. }
  change ("/api/image/" +:+ s +:+ tail)
    with (String "/" ("api/image/" +:+ s +:+ tail)) in *.
  cbn [Image.idMatch]. now rewrite Hhere.
Qed.

(** What follows the identifier in the path is ignored by the handler: a path
    [/api/image/] then [s], alone or followed by [/] and anything, gives
    the identifier [s], for every [s] that is not empty and holds no [/],
    and the route answers it as it answers [/api/image/s]. *)
Theorem trailing_segments_ignored `{Zlib} (storeUp : bool) (s t : string)
    (bk : GridFS.Bucket) :
  s <> "" ->
  slash_free s ->
  Image.idMatch ("/api/image/" +:+ s +:+ String "/" t) = Some s
  /\ Image.GET storeUp ("/api/image/" +:+ s +:+ String "/" t) bk
     = Image.GET storeUp ("/api/image/" +:+ s) bk.
Proof.
  intros Hne Hfree.
  assert (Hlong : Image.idMatch ("/api/image/" +:+ s +:+ String "/" t) = Some s)
    by (apply idMatch_image_path; eauto).
  assert (Hshort : Image.idMatch ("/api/image/" +:+ s) = Some s).
  { rewrite <- (string_app_empty s) at 1.
    apply idMatch_image_path; auto. }
  split; [exact Hlong|].
  unfold Image.GET. now rewrite Hlong, Hshort.
Qed.

Lemma trailing_segments_ignored_witness :
  Image.GET true "/api/image/0000000000000000000000ff/thumbnail"
    (snd (Upload.POST upload_env (Upload.Form (Some small_png)) ∅))
  = Image.GET true "/api/image/0000000000000000000000ff"
      (snd (Upload.POST upload_env (Upload.Form (Some small_png)) ∅)).
Proof.
  refine (proj2 (trailing_segments_ignored true "0000000000000000000000ff"
                   "thumbnail" _ _ _)).
  - discriminate.
  - unfold slash_free. cbn. intros H.
    repeat (destruct H as [H | H]; [discriminate H|]). exact H.
Defined.

(** ** The retrieval route, case by case *)

Lemma of_string_lower (s : string) :
  ObjectId.of_string (toLowerCase s) = ObjectId.of_string s.
Proof.
  unfold ObjectId.of_string.
  assert (Hlen : String.length (toLowerCase s) = String.length s).
  { induction s as [|c s IH]; cbn; [reflexivity | now rewrite IH]. }
  rewrite Hlen. destruct (Nat.eqb (String.length s) 24); [|reflexivity].
  generalize 0%N. clear Hlen.
  induction s as [|c s IH]; intros acc; cbn [toLowerCase ObjectId.parse_hex];
    [reflexivity|].
  rewrite hex_digit_lower_char.
  destruct (ObjectId.hex_digit c); [apply IH | reflexivity].
Qed.

Lemma toLowerCase_slash_free (s : string) :
  slash_free s -> slash_free (toLowerCase s).
Proof.
  unfold slash_free. induction s as [|c s IH]; cbn [toLowerCase list_ascii_of_string];
    [auto|].
  intros Hfree [Hc | Hin].
  - apply Hfree. left.
    apply Ascii.eqb_eq. rewrite <- lower_char_slash. now apply Ascii.eqb_eq.
  - apply IH; [|exact Hin]. intros Hs. apply Hfree. now right.
Qed.

(** Closes the cases of a classification. *)
Ltac settle :=
  intros;
  repeat match goal with
    | H : exists _, _ |- _ => destruct H
    | H : _ /\ _ |- _ => destruct H
    | H : _ \/ _ |- _ => destruct H
    end;
  try match goal with
    | H : Image.header _ _ = _ |- _ => cbv in H
    end;
  first [discriminate | congruence | reflexivity | solve [eauto 8]].

Section Retrieval.
Context `{Zlib}.

(** X9: the status of the retrieval route depends on the path and on
    whether the store answers, and on nothing else: it is 400 exactly when
    the path gives no identifier; 404 exactly when the identifier is not 24
    hexadecimal characters or the store does not answer; and 200 in every
    other case, whether the bucket holds the identifier or not.  The
    [Cache-Control] header is set exactly on the responses of status 200. *)
Theorem GET_status_classified (storeUp : bool) (pathname : string)
    (bk : GridFS.Bucket) :
  let res := Image.GET storeUp pathname bk in
  (Image.status res = 400 <-> Image.idMatch pathname = None)
  /\ (Image.status res = 404
      <-> exists id, Image.idMatch pathname = Some id
                     /\ (ObjectId.of_string id = None \/ storeUp = false))
  /\ (Image.status res = 200
      <-> exists id oid, Image.idMatch pathname = Some id
                         /\ ObjectId.of_string id = Some oid
                         /\ storeUp = true)
  /\ (Image.header "Cache-Control" res = Some (JS.Str "public, max-age=31536000")
      <-> Image.status res = 200).
Proof.
  cbv zeta. unfold Image.GET.
  destruct (Image.idMatch pathname) as [id|] eqn:Hid;
    [destruct (ObjectId.of_string id) as [oid|] eqn:Hoid; [destruct storeUp|]|];
    cbn [negb Image.status];
    (split; [|split; [|split]]); split; settle.
Qed.

(** X10: an identifier of the right form that the bucket does not hold is
    not answered 404.  Neither the download stream nor [findOne] throws, so
    the response is built with status 200, the type [image/jpeg] and the
    caching header, over a stream that fails when it is read. *)
Theorem GET_not_stored (pathname id : string) (oid : ObjectId.t)
    (bk : GridFS.Bucket) :
  Image.idMatch pathname = Some id ->
  ObjectId.of_string id = Some oid ->
  bk !! oid = None ->
  Image.GET true pathname bk
  = {| Image.status := 200;
       Image.headers :=
         [("Content-Type", JS.Str "image/jpeg");
          ("Cache-Control", JS.Str "public, max-age=31536000")];
       Image.body := Image.Streamed GridFS.StreamError |}.
Proof.
  intros Hid Hoid Hnone. unfold Image.GET. rewrite Hid, Hoid.
  cbn [negb]. unfold GridFS.findOne, GridFS.openDownloadStream.
  now rewrite Hnone.
Qed.

(** X11: the route does not tell the upper-case letters of an identifier
    from the lower-case ones: for every segment [s], it answers
    [/api/image/s] as it answers the same path with [s] in lower case. *)
Theorem GET_ignores_case (storeUp : bool) (s : string) (bk : GridFS.Bucket) :
  s <> "" ->
  slash_free s ->
  Image.GET storeUp ("/api/image/" +:+ s) bk
  = Image.GET storeUp ("/api/image/" +:+ toLowerCase s) bk.
Proof.
  intros Hne Hfree.
  assert (Hs : Image.idMatch ("/api/image/" +:+ s) = Some s).
  { rewrite <- (string_app_empty s) at 1. apply idMatch_image_path; auto. }
  assert (Hl : Image.idMatch ("/api/image/" +:+ toLowerCase s)
               = Some (toLowerCase s)).
  { rewrite <- (string_app_empty (toLowerCase s)) at 1.
    apply idMatch_image_path; auto.
    - destruct s; [now destruct Hne | discriminate].
    - now apply toLowerCase_slash_free. }
  unfold Image.GET. now rewrite Hs, Hl, of_string_lower.
Qed.

End Retrieval.

Lemma GET_not_stored_witness :
  Image.status (Image.GET true "/api/image/0000000000000000000000ff" ∅) = 200
  /\ Image.body (Image.GET true "/api/image/0000000000000000000000ff" ∅)
     = Image.Streamed GridFS.StreamError.
Proof.
  rewrite (GET_not_stored "/api/image/0000000000000000000000ff"
             "0000000000000000000000ff" 255%N ∅ eq_refl eq_refl
             (lookup_empty _)).
  split; reflexivity.
Defined.

Lemma GET_ignores_case_witness :
  Image.GET true "/api/image/0000000000000000000000FF"
    (snd (Upload.POST upload_env (Upload.Form (Some small_png)) ∅))
  = Image.GET true "/api/image/0000000000000000000000ff"
      (snd (Upload.POST upload_env (Upload.Form (Some small_png)) ∅)).
Proof.
  refine (GET_ignores_case true "0000000000000000000000FF" _ _ _).
  - discriminate.
  - unfold slash_free. cbn. intros H.
    repeat (destruct H as [H | H]; [discriminate H|]). exact H.
Defined.

(** ** The upload route, case by case *)

Section Uploads.
Context `{Zlib}.

(** X12: the status of the upload route is 200 exactly when a file is
    present, is at most 5 MB, declares a type starting with [image/] and the
    write finishes; 400 exactly when the field [file] is absent or an empty
    text, or the file is too long or of another type; 500 exactly when the
    form cannot be parsed, the field [file] is a text that is not empty, or
    the write of an acceptable file fails or times out.  The page's test
    [res.ok] holds exactly on status 200. *)
Theorem upload_status_classified (e : Upload.Env) (req : Upload.Request)
    (bk : GridFS.Bucket) :
  let res := fst (Upload.POST e req bk) in
  (Upload.status res = 200
   <-> exists f, req = Upload.Form (Some f)
                 /\ Upload.size f <= 5242880
                 /\ JS.startsWith "image/" (Upload.type f) = true
                 /\ Upload.race e = Upload.Finish)
  /\ (Upload.status res = 400
      <-> req = Upload.Form None
          \/ req = Upload.TextField ""
          \/ exists f, req = Upload.Form (Some f)
                       /\ (5242880 < Upload.size f
                           \/ JS.startsWith "image/" (Upload.type f) = false))
  /\ (Upload.status res = 500
      <-> req = Upload.Malformed
          \/ (exists value, req = Upload.TextField value /\ value <> "")
          \/ exists f, req = Upload.Form (Some f)
                       /\ Upload.size f <= 5242880
                       /\ JS.startsWith "image/" (Upload.type f) = true
                       /\ Upload.race e <> Upload.Finish)
  /\ (Upload.ok res = true <-> Upload.status res = 200).
Proof.
  cbv zeta. unfold Upload.POST, Upload.maxSize.
  destruct req as [|[f|]|value].
  - cbn. (split; [|split; [|split]]); split; settle.
  - destruct (Upload.size f >? 5 * 1024 * 1024) eqn:Hsize;
      [|destruct (JS.startsWith "image/" (Upload.type f)) eqn:Htype;
        [destruct (Upload.race e) eqn:Hrace|]];
      cbn [negb fst Upload.status Upload.ok];
      (split; [|split; [|split]]); split; intros Hx;
      repeat match goal with
        | H : exists _, _ |- _ => destruct H
        | H : _ /\ _ |- _ => destruct H
        | H : _ \/ _ |- _ => destruct H
        | H : Upload.Form _ = Upload.Form _ |- _ => injection H as ->
        end;
      try discriminate; try congruence; try reflexivity; try lia;
      try (right; right; exists f; split; [reflexivity|];
           first [left; lia | right; congruence]);
      try (exists f; repeat split; first [reflexivity | lia | congruence]);
      try (right; right; exists f; repeat split;
           first [reflexivity | lia | congruence]).
  - cbn. (split; [|split; [|split]]); split; settle.
  - destruct (JS.nonempty value) eqn:Hv; unfold JS.nonempty in Hv;
      cbn [fst Upload.status Upload.ok];
      (split; [|split; [|split]]); split; intros Hx;
      repeat match goal with
        | H : exists _, _ |- _ => destruct H
        | H : _ /\ _ |- _ => destruct H
        | H : _ \/ _ |- _ => destruct H
        | H : Upload.TextField _ = Upload.TextField _ |- _ => injection H as ->
        end;
      try discriminate; try reflexivity.
    + right. left. exists value. split; [reflexivity|].
      now apply negb_true_iff, String.eqb_neq in Hv.
    + right. left. f_equal.
      now apply negb_false_iff, String.eqb_eq in Hv.
    + apply negb_false_iff, String.eqb_eq in Hv. congruence.
Qed.

Lemma upload_keeps_others (e : Upload.Env) (req : Upload.Request)
    (bk : GridFS.Bucket) (oid : ObjectId.t) :
  oid <> Upload.fresh e ->
  snd (Upload.POST e req bk) !! oid = bk !! oid.
Proof.
  intros Hne. unfold Upload.POST.
  destruct req as [|[f|]|value]; try reflexivity;
    [|now destruct (JS.nonempty value)].
  destruct (Upload.size f >? Upload.maxSize); [reflexivity|].
  destruct (negb (JS.startsWith "image/" (Upload.type f))); [reflexivity|].
  destruct (Upload.race e); try reflexivity.
  cbn [snd]. now apply lookup_insert_ne.
Qed.

(** X13: an image that was uploaded stays retrievable through later
    requests to the upload route, accepted or not, as long as they are
    given another identifier: the retrieval of the first identifier still
    streams the bytes of the first file. *)
Theorem earlier_upload_survives (e1 e2 : Upload.Env) (f1 : Upload.File)
    (req2 : Upload.Request) (bk : GridFS.Bucket) :
  Upload.size f1 <= 5242880 ->
  JS.startsWith "image/" (Upload.type f1) = true ->
  Upload.race e1 = Upload.Finish ->
  ObjectId_wf (Upload.fresh e1) ->
  Upload.fresh e2 <> Upload.fresh e1 ->
  let bk1 := snd (Upload.POST e1 (Upload.Form (Some f1)) bk) in
  let bk2 := snd (Upload.POST e2 req2 bk1) in
  Image.GET true ("/api/image/" +:+ ObjectId.toString (Upload.fresh e1)) bk2
  = Image.GET true ("/api/image/" +:+ ObjectId.toString (Upload.fresh e1)) bk1
  /\ Image.body
       (Image.GET true ("/api/image/" +:+ ObjectId.toString (Upload.fresh e1)) bk2)
     = Image.Streamed (GridFS.Bytes (Upload.content f1)).
Proof.
  intros Hsize Htype Hrace Hid Hne. cbv zeta.
  assert (Hsame :
    Image.GET true ("/api/image/" +:+ ObjectId.toString (Upload.fresh e1))
      (snd (Upload.POST e2 req2 (snd (Upload.POST e1 (Upload.Form (Some f1)) bk))))
    = Image.GET true ("/api/image/" +:+ ObjectId.toString (Upload.fresh e1))
        (snd (Upload.POST e1 (Upload.Form (Some f1)) bk))).
  { unfold Image.GET.
    rewrite idMatch_toString, (ObjectId_of_toString _ Hid). cbn [negb].
    unfold GridFS.findOne, GridFS.openDownloadStream.
    now rewrite upload_keeps_others by congruence. }
  split; [exact Hsame|].
  rewrite Hsame, upload_then_GET by (unfold Upload.maxSize; auto with zarith).
  reflexivity.
Qed.

End Uploads.

Lemma earlier_upload_survives_witness :
  let e2 := {| Upload.now := 1700000000500;
               Upload.fresh := 256%N;
               Upload.race := Upload.Finish |} in
  Image.body
    (Image.GET true "/api/image/0000000000000000000000ff"
       (snd (Upload.POST e2 (Upload.Form (Some notes_txt))
               (snd (Upload.POST upload_env (Upload.Form (Some small_png)) ∅)))))
  = Image.Streamed (GridFS.Bytes (Upload.content small_png)).
Proof.
  cbv zeta.
  refine (proj2 (earlier_upload_survives upload_env
                   {| Upload.now := 1700000000500;
                      Upload.fresh := 256%N;
                      Upload.race := Upload.Finish |}
                   small_png (Upload.Form (Some notes_txt)) ∅ _ eq_refl eq_refl _ _)).
  - cbv. discriminate.
  - unfold ObjectId_wf. cbn. lia.
  - discriminate.
Defined.

(** ** The image slots of the form *)

Lemma lookup_assign {A : Type} (i j : nat) (x : option A) (a : list (option A)) :
  Page.assign i x a !! j
  = if decide (j = i) then Some x
    else if decide (j < Nat.max (List.length a) (S i))%nat
         then Some (Page.slot a j) else None.
Proof.
  unfold Page.assign, Page.slot.
  destruct (i <? List.length a)%nat eqn:Hi.
  - apply Nat.ltb_lt in Hi. destruct (decide (j = i)) as [->|Hne].
    + now apply list_lookup_insert_eq.
    + rewrite list_lookup_insert_ne by congruence.
      destruct (decide (j < _)%nat) as [Hj|Hj].
      * destruct (lookup_lt_is_Some_2 a j) as [y Hy]; [lia|]. now rewrite Hy.
      * apply lookup_ge_None. lia.
  - apply Nat.ltb_ge in Hi. destruct (decide (j = i)) as [->|Hne].
    + rewrite lookup_app_r by lia.
      rewrite lookup_app_r by (rewrite length_replicate; lia).
      rewrite length_replicate.
      now replace (i - List.length a - (i - List.length a))%nat with 0%nat by lia.
    + destruct (decide (j < _)%nat) as [Hj|Hj].
      * destruct (decide (j < List.length a)%nat) as [Hlt|Hge].
        -- rewrite lookup_app_l by lia.
           destruct (lookup_lt_is_Some_2 a j) as [y Hy]; [lia|]. now rewrite Hy.
        -- rewrite lookup_app_r by lia.
           rewrite lookup_app_l by (rewrite length_replicate; lia).
           rewrite lookup_replicate_2 by lia.
           rewrite (lookup_ge_None_2 a j) by lia. reflexivity.
      * apply lookup_ge_None. rewrite !length_app, length_replicate. cbn. lia.
Qed.

Lemma length_assign {A : Type} (i : nat) (x : option A) (a : list (option A)) :
  List.length (Page.assign i x a) = Nat.max (List.length a) (S i).
Proof.
  unfold Page.assign. destruct (i <? List.length a)%nat eqn:Hi.
  - apply Nat.ltb_lt in Hi. rewrite length_insert. lia.
  - apply Nat.ltb_ge in Hi. rewrite !length_app, length_replicate. cbn. lia.
Qed.

(** X14: assigning to a slot of the file array, inside the array or beyond
    its end: the slot then reads what was assigned, every other slot reads
    what it read before, and the array is as long as before or just long
    enough to hold the slot. *)
Theorem assign_slot {A : Type} (i : nat) (x : option A) (a : list (option A)) :
  Page.slot (Page.assign i x a) i = x
  /\ (forall j, j <> i -> Page.slot (Page.assign i x a) j = Page.slot a j)
  /\ List.length (Page.assign i x a) = Nat.max (List.length a) (S i).
Proof.
  split; [|split].
  - unfold Page.slot at 1. rewrite lookup_assign.
    now destruct (decide (i = i)).
  - intros j Hne. unfold Page.slot at 1. rewrite lookup_assign.
    destruct (decide (j = i)); [contradiction|].
    destruct (decide (j < _)%nat) as [Hj|Hj]; [reflexivity|].
    unfold Page.slot. rewrite lookup_ge_None_2 by lia. reflexivity.
  - apply length_assign.
Qed.

Lemma assign_comm {A : Type} (i j : nat) (x y : option A) (a : list (option A)) :
  i <> j ->
  Page.assign i x (Page.assign j y a) = Page.assign j y (Page.assign i x a).
Proof.
  intros Hne. apply list_eq. intros k.
  rewrite !lookup_assign, !length_assign. unfold Page.slot.
  rewrite !lookup_assign.
  repeat (destruct (decide _); try lia; try congruence); cbn;
    try reflexivity;
    unfold Page.slot; rewrite lookup_ge_None_2 by lia; reflexivity.
Qed.

(** X15: choosing files for two different slots gives the same form in
    either order, so the order of the uploads is the order of the slots
    and not the order in which the files were chosen. *)
Theorem onFileChange_comm (i j : nat) (f g : Upload.File)
    (fs gs : list Upload.File) (st : Page.State) :
  i <> j ->
  Page.onFileChange i (f :: fs) (Page.onFileChange j (g :: gs) st)
  = Page.onFileChange j (g :: gs) (Page.onFileChange i (f :: fs) st).
Proof.
  intros Hne. unfold Page.onFileChange, Page.setFiles. cbn.
  now rewrite assign_comm.
Qed.

Lemma onFileChange_comm_witness :
  Page.FormData.files
    (Page.form
       (Page.onFileChange 0 [small_png]
          (Page.onFileChange 2 [notes_txt]
             (page_start (form_with_location "Kumasi") picked_point))))
  = [Some small_png; None; Some notes_txt].
Proof.
  rewrite (onFileChange_comm 0 2 small_png notes_txt [] []
             (page_start (form_with_location "Kumasi") picked_point)).
  - reflexivity.
  - discriminate.
Defined.

(** ** The uploads of a submission *)


Section Uploading.

Variable fetchUpload : Upload.File -> JS.Outcome Upload.Response.
Variable fetchGeocode : string -> JS.Outcome (list Page.GeoEntry.t).
Variable NumberOfString : string -> float.
Variable now : Z.

Lemma all_uploadPromises_ok (idOf : Upload.File -> string)
    (files : list (option Upload.File)) :
  (forall f, In (Some f) files ->
             fetchUpload f = JS.Ok (Upload.FileId (idOf f))) ->
  Page.all (Page.uploadPromises fetchUpload files)
  = JS.Ok (map idOf (omap id files)).
Proof.
  unfold Page.uploadPromises.
  induction files as [|[f|] files IH]; intros Hok; cbn.
  - reflexivity.
  - unfold Page.uploadToMongo at 1. rewrite Hok by now left.
    rewrite IH; [reflexivity|]. intros f' Hin. apply Hok. now right.
  - apply IH. intros f' Hin. apply Hok. now right.
Qed.

(** X16: when every upload is answered with an identifier, the image
    identifiers of the composed payload are the identifiers of the selected
    files in the order of their slots, the empty slots skipped, one per
    selected file. *)
Theorem images_follow_slots (idOf : Upload.File -> string) (st : Page.State) :
  (forall f, In (Some f) (Page.FormData.files (Page.form st)) ->
             fetchUpload f = JS.Ok (Upload.FileId (idOf f))) ->
  omap id (Page.FormData.files (Page.form st)) <> [] ->
  exists p,
    Page.composed fetchUpload fetchGeocode NumberOfString now st = JS.Ok p
    /\ Payload.images p
       = map idOf (omap id (Page.FormData.files (Page.form st))).
Proof.
  intros Hok Hsel.
  assert (Hids : Page.imageIds fetchUpload (Page.form st)
                 = JS.Ok (map idOf (omap id (Page.FormData.files (Page.form st))))).
  { unfold Page.imageIds. rewrite (all_uploadPromises_ok idOf) by exact Hok.
    destruct (Page.FormData.files (Page.form st)) as [|x files];
      [now destruct Hsel|].
    cbn [List.length]. replace (0 <? Z.of_nat (S (List.length files))) with true
      by (symmetry; apply Z.ltb_lt; lia).
    destruct (omap id (x :: files)) as [|f sel]; [now destruct Hsel|].
    reflexivity. }
  unfold Page.composed. rewrite Hids. eexists. split; [reflexivity|].
  unfold Page.propertyData. now destruct (Page.coordinates _ _ _ _).
Qed.

End Uploading.

Lemma images_follow_slots_witness :
  exists p,
    Page.composed (fun f => JS.Ok (Upload.FileId (Upload.name f)))
      geocode_one number_of 1700000000000
      (Page.onFileChange 0 [small_png]
         (Page.onFileChange 2 [notes_txt]
            (page_start (form_with_location "Kumasi") picked_point)))
    = JS.Ok p
    /\ Payload.images p = ["plan.png"; "notes.txt"].
Proof.
  apply (images_follow_slots (fun f => JS.Ok (Upload.FileId (Upload.name f)))
           geocode_one number_of 1700000000000 Upload.name
           (Page.onFileChange 0 [small_png]
              (Page.onFileChange 2 [notes_txt]
                 (page_start (form_with_location "Kumasi") picked_point)))).
  - reflexivity.
  - discriminate.
Defined.

Section PageAndServer.
Context `{Zlib}.

Variable fetchGeocode : string -> JS.Outcome (list Page.GeoEntry.t).
Variable fetchCreate :
  Payload.t (option float) -> JS.Outcome (Page.Reply Properties.Json).
Variable fetchProperties : JS.Outcome (list Listing.t).
Variable NumberOfString : string -> float.
Variable now : Z.





End PageAndServer.


(** ** A submission while the database is down *)


Section Degraded.

Variable fetchUpload : Upload.File -> JS.Outcome Upload.Response.
Variable fetchGeocode : string -> JS.Outcome (list Page.GeoEntry.t).
Variable NumberOfString : string -> float.
Variable now : Z.


End Degraded.


(** ** From the listing to its images *)

Lemma hex_char_not_p (d : N) :
  (d < 16)%N -> Ascii.eqb "p" (ObjectId.hex_char d) = false.
Proof.
  intros Hd.
  assert (Hcases : In d (map N.of_nat (seq 0 16))).
  { apply in_map_iff. exists (N.to_nat d). split; [lia|]. apply in_seq. lia. }
  cbn in Hcases.
  repeat (destruct Hcases as [<- | Hcases]; [reflexivity|]).
  destruct Hcases.
Qed.

Lemma toString_not_placeholder (oid : ObjectId.t) :
  JS.startsWith "placeholder" (ObjectId.toString oid) = false.
Proof.
  unfold ObjectId.toString. rewrite hex_digits_lead.
  change (JS.startsWith "placeholder" (String ?c ?t))
    with (Ascii.eqb "p" c && JS.startsWith "laceholder" t).
  rewrite hex_char_not_p; [reflexivity|].
  apply N.mod_lt. discriminate.
Qed.

(** X19: an identifier given by the upload route is never taken for a
    placeholder: the source of its image is the path of the retrieval
    route for it, and that path leads the route back to the identifier. *)
Theorem imageSrc_of_identifier (oid : ObjectId.t) :
  ObjectId_wf oid ->
  Page.imageSrc (ObjectId.toString oid) = "/api/image/" +:+ ObjectId.toString oid
  /\ Image.idMatch (Page.imageSrc (ObjectId.toString oid)) ≫= ObjectId.of_string
     = Some oid.
Proof.
  intros Hid. unfold Page.imageSrc. rewrite toString_not_placeholder.
  split; [reflexivity|].
  rewrite idMatch_toString. cbn [mbind option_bind].
  now apply ObjectId_of_toString.
Qed.

Lemma imageSrc_of_identifier_witness :
  Page.imageSrc (ObjectId.toString 255%N)
  = "/api/image/0000000000000000000000ff".
Proof.
  rewrite (proj1 (imageSrc_of_identifier 255%N ltac:(unfold ObjectId_wf; cbn; lia))).
  reflexivity.
Defined.

Lemma validate_images (fresh : ObjectId.t) (d : Payload.t (option float))
    (doc : Listing.t) :
  Property.validate fresh d = Some doc -> Listing.images doc = Payload.images d.
Proof.
  unfold Property.validate.
  destruct (Property.required_string (Payload.name d)); [|discriminate].
  destruct (Property.required_string (Payload.location d)); [|discriminate].
  destruct (Property.required_string (Payload.description d)); [|discriminate].
  destruct (Payload.lat d); [|discriminate].
  destruct (Payload.lng d); [|discriminate].
  destruct (Payload.price d); [|discriminate].
  cbn. now intros [= <-].
Qed.

Lemma fetchCreate_of_created (e : Properties.Env) (srv : Properties.State)
    (p : Payload.t (option float)) (doc : Listing.t) :
  Page.fetchCreate_of e srv p = JS.Ok (Page.Success (Properties.Created doc)) ->
  Listing.images doc = Payload.images p.
Proof.
  unfold Page.fetchCreate_of, Properties.POST, Properties.POST_catch,
    Property.create.
  destruct (Db.dbConnect _ _) as [[c|m] cached'];
    cbn [fst Properties.json Properties.request Properties.bodyUsed
         Properties.body]; [|discriminate].
  destruct (Property.validate (Properties.fresh e) p) as [d|] eqn:Hv;
    [destruct (Properties.storeOk e)|]; cbn [fst]; try discriminate.
  intros [= <-]. exact (validate_images _ _ _ Hv).
Qed.

Section EndToEnd.
Context `{Zlib}.

Variable fetchGeocode : string -> JS.Outcome (list Page.GeoEntry.t).
Variable fetchProperties : JS.Outcome (list Listing.t).
Variable NumberOfString : string -> float.
Variable now : Z.

(** X20: from the file input to the card.  When a form with one selected
    file is submitted through the upload route and the create route, and
    the create route answers with the stored listing, the image that the
    card of this listing asks for is answered by the retrieval route with
    the bytes of the selected file, and with its declared type when the
    file is at most 1 MiB. *)
Theorem uploaded_image_is_displayed (eu : Upload.Env) (bk : GridFS.Bucket)
    (es : Properties.Env) (srv : Properties.State) (st : Page.State)
    (f : Upload.File) (data : Payload.t float) (doc : Listing.t)
    (refreshed : list Listing.t) :
  omap id (Page.FormData.files (Page.form st)) = [f] ->
  ObjectId_wf (Upload.fresh eu) ->
  Page.submit (Page.fetchUpload_of eu bk) fetchGeocode
    (Page.fetchCreate_of es srv) fetchProperties NumberOfString now st
  = JS.Ok (data, Properties.Created doc, refreshed) ->
  let res := Image.GET true (Page.mainImg (Listing.images doc))
               (snd (Upload.POST eu (Upload.Form (Some f)) bk)) in
  Image.status res = 200
  /\ Image.body res = Image.Streamed (GridFS.Bytes (Upload.content f))
  /\ (Upload.size f <= 1048576 ->
      Image.header "Content-Type" res = Some (JS.Str (Upload.type f))).
Proof.
  intros Hsel Hid Hsubmit. cbv zeta.
  assert (Hpromises :
    Page.uploadPromises (Page.fetchUpload_of eu bk)
      (Page.FormData.files (Page.form st))
    = [Page.uploadToMongo (Page.fetchUpload_of eu bk) f]).
  { unfold Page.uploadPromises. revert Hsel.
    induction (Page.FormData.files (Page.form st)) as [|[g|] files IH]; cbn.
    - discriminate.
    - intros [= -> Hrest]. f_equal.
      clear IH. induction files as [|[g|] files IH]; cbn in *;
        [reflexivity | discriminate | auto].
    - exact IH. }
  unfold Page.submit, Page.composed, Page.imageIds in Hsubmit.
  rewrite Hpromises in Hsubmit.
  assert (Hnonempty : (0 <? Z.of_nat (List.length
                         (Page.FormData.files (Page.form st)))) = true).
  { destruct (Page.FormData.files (Page.form st)); [discriminate Hsel|].
    apply Z.ltb_lt. cbn [List.length]. lia. }
  rewrite Hnonempty in Hsubmit. cbn [Page.all] in Hsubmit.
  unfold Page.uploadToMongo, Page.fetchUpload_of in Hsubmit.
  assert (Haccepted :
    Upload.size f <= Upload.maxSize
    /\ JS.startsWith "image/" (Upload.type f) = true
    /\ Upload.race eu = Upload.Finish).
  { revert Hsubmit. unfold Upload.POST.
    destruct (Upload.size f >? Upload.maxSize) eqn:Hsize; [discriminate|].
    destruct (JS.startsWith "image/" (Upload.type f)); cbn [negb];
      [|discriminate].
    destruct (Upload.race eu); try discriminate.
    intros _. repeat split. lia. }
  destruct Haccepted as (Hsize & Htype & Hrace).
  rewrite POST_accepted in Hsubmit by assumption. cbn [fst] in Hsubmit.
  change (Z.of_nat (List.length [ObjectId.toString (Upload.fresh eu)]) =? 0)
    with false in Hsubmit.
  cbv iota in Hsubmit.
  destruct (Page.fetchCreate_of es srv _) as [[j|s1 s2]|msg] eqn:Hcreate;
    try discriminate Hsubmit.
  destruct fetchProperties as [l|msg]; [|discriminate Hsubmit].
  injection Hsubmit as <- -> <-.
  apply fetchCreate_of_created in Hcreate.
  rewrite Hcreate.
  replace (Payload.images (Payload.toJSON
             (Page.propertyData fetchGeocode NumberOfString now st
                [ObjectId.toString (Upload.fresh eu)])))
    with [ObjectId.toString (Upload.fresh eu)]
    by (unfold Page.propertyData; now destruct (Page.coordinates _ _ _ _)).
  cbn [Page.mainImg]. unfold Page.imageSrc.
  rewrite toString_not_placeholder.
  rewrite upload_then_GET by assumption.
  split; [reflexivity|]. split; [reflexivity|].
  intros Hsmall. unfold Upload.shouldCompress.
  replace (Upload.size f >? 1024 * 1024) with false by lia. reflexivity.
Qed.

End EndToEnd.

Lemma uploaded_image_is_displayed_witness :
  exists doc,
    Listing.images doc = ["0000000000000000000000ff"]
    /\ Image.body
         (Image.GET true (Page.mainImg (Listing.images doc))
            (snd (Upload.POST upload_env (Upload.Form (Some small_png)) ∅)))
       = Image.Streamed (GridFS.Bytes (Upload.content small_png)).
Proof.
  pose (st := Page.onFileChange 1 [small_png]
                (page_start (form_with_location "Kumasi") picked_point)).
  assert (Hsubmit :
    exists data doc,
      Page.submit (Page.fetchUpload_of upload_env ∅) geocode_one
        (Page.fetchCreate_of (server_env db_up) server_start) (JS.Ok [])
        number_of 1700000000000 st
      = JS.Ok (data, Properties.Created doc, [])
      /\ Listing.images doc = ["0000000000000000000000ff"]).
  { do 2 eexists. split; reflexivity. }
  destruct Hsubmit as (data & doc & Hsubmit & Himages).
  exists doc. split; [exact Himages|].
  refine (proj1 (proj2 (uploaded_image_is_displayed geocode_one (JS.Ok [])
                          number_of 1700000000000 upload_env ∅
                          (server_env db_up) server_start st small_png data doc []
                          eq_refl _ Hsubmit))).
  unfold ObjectId_wf. cbn. lia.
Defined.

Lemma uploadPromises_none (fetchUpload : Upload.File -> JS.Outcome Upload.Response)
    (files : list (option Upload.File)) :
  omap id files = [] -> Page.uploadPromises fetchUpload files = [].
Proof.
  unfold Page.uploadPromises.
  induction files as [|[f|] files IH]; cbn; [reflexivity | discriminate | exact IH].
Qed.

Lemma display_name_or_nonempty (display_name : option string) (fallback : string) :
  fallback <> "" -> Page.display_name_or display_name fallback <> "".
Proof.
  intros Hfb. unfold Page.display_name_or.
  destruct display_name as [n|]; [|exact Hfb].
  destruct (JS.nonempty n) eqn:Hn; [|exact Hfb].
  unfold JS.nonempty in Hn. now apply negb_true_iff, String.eqb_neq in Hn.
Qed.

Section Rendering.

Variable fetchUpload : Upload.File -> JS.Outcome Upload.Response.
Variable fetchGeocode : string -> JS.Outcome (list Page.GeoEntry.t).
Variable NumberOfString : string -> float.
Variable now : Z.

Abbreviation composed' :=
  (Page.composed fetchUpload fetchGeocode NumberOfString now).

Lemma composed_label (st : Page.State) (p : Payload.t float) :
  composed' st = JS.Ok p ->
  Payload.location p
  = if JS.nonempty (Page.locationName st) then Page.locationName st
    else Page.FormData.location (Page.form st).
Proof.
  unfold Page.composed.
  destruct (Page.imageIds fetchUpload (Page.form st)) as [ids|m]; [|discriminate].
  intros [= <-]. unfold Page.propertyData.
  now destruct (Page.coordinates _ _ _ _).
Qed.

(** X21: a listing composed from a form in which no slot holds a file, the
    slots emptied again included, shows the stock photograph everywhere:
    on its card and marker, and for each of its images in the details
    dialog; no image of it is asked of the retrieval route. *)
Theorem no_file_listing_shows_stock (st : Page.State) (p : Payload.t float) :
  omap id (Page.FormData.files (Page.form st)) = [] ->
  composed' st = JS.Ok p ->
  Page.mainImg (Payload.images p) = Page.stockPhoto
  /\ Forall (fun imgId => Page.imageSrc imgId = Page.stockPhoto)
       (Payload.images p).
Proof.
  intros Hnone. unfold Page.composed, Page.imageIds.
  rewrite (uploadPromises_none _ _ Hnone). cbn [Page.all].
  destruct (0 <? _); cbn; intros [= <-]; unfold Page.propertyData;
    destruct (Page.coordinates _ _ _ _); cbn;
    (split; [reflexivity | repeat constructor]).
Qed.

(** X22: the map of the form draws the marker of the selected point only
    when neither coordinate is zero, while the submission uses the point
    unless both are zero.  So a drawn marker is always the point of the
    listing; and a point on the equator or on the zero meridian is the
    point of the listing although no marker shows it. *)
Theorem marker_and_coordinates (st : Page.State) (p : Payload.t float) :
  composed' st = JS.Ok p ->
  let sel := Page.selectedLocation st in
  (RealEstateMap.selectedMarker sel = true ->
   Payload.lat p = Page.LatLng.lat sel /\ Payload.lng p = Page.LatLng.lng sel)
  /\ (JS.is_zero (Page.LatLng.lat sel) = negb (JS.is_zero (Page.LatLng.lng sel)) ->
      RealEstateMap.selectedMarker sel = false
      /\ Payload.lat p = Page.LatLng.lat sel
      /\ Payload.lng p = Page.LatLng.lng sel).
Proof.
  intros Hp. apply composed_coordinates in Hp. cbv zeta.
  unfold Page.coordinates in Hp. unfold RealEstateMap.selectedMarker.
  destruct (JS.is_zero (Page.LatLng.lat (Page.selectedLocation st)));
    destruct (JS.is_zero (Page.LatLng.lng (Page.selectedLocation st)));
    cbn [andb negb] in *; (split; [intros Hm | intros Hz]);
    try discriminate; now inversion Hp.
Qed.

(** X23: after a click on the map, or after the browser gave its position,
    with the reverse lookup answered, the listing that is composed has a
    label that is not empty: the name the lookup gave, or [Selected
    Location], respectively [Current Location], when it gave none; this
    whatever was typed as location.  And it has the coordinates of the
    point, unless both are zero. *)
Theorem point_then_submit
    (reverse : float -> float -> JS.Outcome (option string))
    (lat lng : float) (display_name : option string) (st : Page.State)
    (p : Payload.t float) :
  reverse lat lng = JS.Ok display_name ->
  (composed' (Page.handleMapClick reverse lat lng st) = JS.Ok p ->
   Payload.location p = Page.display_name_or display_name "Selected Location"
   /\ Payload.location p <> ""
   /\ (JS.is_zero lat && JS.is_zero lng = false ->
       Payload.lat p = lat /\ Payload.lng p = lng))
  /\ (composed' (Page.getCurrentLocation (Page.Position lat lng) reverse st)
      = JS.Ok p ->
      Payload.location p = Page.display_name_or display_name "Current Location"
      /\ Payload.location p <> ""
      /\ (JS.is_zero lat && JS.is_zero lng = false ->
          Payload.lat p = lat /\ Payload.lng p = lng)).
Proof.
  intros Hrev.
  unfold Page.handleMapClick, Page.getCurrentLocation. rewrite Hrev.
  split; intros Hp;
    pose proof (composed_label _ _ Hp) as Hlabel;
    apply composed_coordinates in Hp;
    cbn [Page.setPoint Page.locationName Page.selectedLocation Page.form
         Page.LatLng.lat Page.LatLng.lng] in Hlabel, Hp;
    unfold Page.coordinates in Hp;
    cbn [Page.LatLng.lat Page.LatLng.lng] in Hp;
    (assert (Hne : Page.display_name_or display_name "Selected Location" <> ""
                   /\ Page.display_name_or display_name "Current Location" <> "")
       by (split; apply display_name_or_nonempty; discriminate));
    destruct Hne as [Hsel Hcur].
  - assert (Ht : JS.nonempty (Page.display_name_or display_name "Selected Location")
                 = true)
      by (unfold JS.nonempty; now apply negb_true_iff, String.eqb_neq).
    rewrite Ht in Hlabel. rewrite Hlabel.
    split; [reflexivity|]. split; [exact Hsel|].
    intros Hz. rewrite Hz in Hp. cbn [andb] in Hp. now inversion Hp.
  - assert (Ht : JS.nonempty (Page.display_name_or display_name "Current Location")
                 = true)
      by (unfold JS.nonempty; now apply negb_true_iff, String.eqb_neq).
    rewrite Ht in Hlabel. rewrite Hlabel.
    split; [reflexivity|]. split; [exact Hcur|].
    intros Hz. rewrite Hz in Hp. cbn [andb] in Hp. now inversion Hp.
Qed.

(** X24: after a suggestion was taken, the label of the composed listing
    is the suggestion, whatever name an earlier click had left; and with no
    point selected, it is the suggestion that is sent to the geocoder. *)
Theorem suggestion_then_submit (suggestion : string) (st : Page.State)
    (p : Payload.t float) :
  composed' (fst (Page.selectLocation suggestion st)) = JS.Ok p ->
  Payload.location p = suggestion
  /\ (JS.is_zero (Page.LatLng.lat (Page.selectedLocation st))
      && JS.is_zero (Page.LatLng.lng (Page.selectedLocation st)) = true ->
      blank suggestion = false ->
      forall g rest,
        fetchGeocode suggestion = JS.Ok (g :: rest) ->
        Payload.lat p = NumberOfString (Page.GeoEntry.lat g)
        /\ Payload.lng p = NumberOfString (Page.GeoEntry.lon g)).
Proof.
  intros Hp. pose proof (composed_label _ _ Hp) as Hlabel.
  apply composed_coordinates in Hp.
  cbn [Page.selectLocation fst Page.setLocation Page.locationName
       Page.selectedLocation Page.form Page.FormData.location] in Hlabel, Hp.
  split.
  - rewrite Hlabel. now destruct (JS.nonempty suggestion).
  - intros Hz Hblank g rest Hgeo. unfold Page.coordinates in Hp.
    rewrite Hz, Hgeo in Hp.
    assert (Hne : JS.nonempty (JS.trim suggestion) = true).
    { unfold JS.nonempty. apply negb_true_iff, String.eqb_neq.
      rewrite trim_empty_iff_blank. congruence. }
    rewrite Hne in Hp. cbn [andb] in Hp. now inversion Hp.
Qed.

End Rendering.

Lemma no_file_listing_shows_stock_witness :
  let st := Page.onFileRemove 1
              (Page.onFileChange 1 [small_png]
                 (page_start (form_with_location "Kumasi") picked_point)) in
  Page.FormData.files (Page.form st) = [None; None]
  /\ Page.mainImg
       (Payload.images
          (Page.propertyData geocode_one number_of 1700000000000 st
             Page.placeholders))
     = Page.stockPhoto.
Proof.
  cbv zeta. split; [reflexivity|].
  exact (proj1 (no_file_listing_shows_stock upload_down geocode_one number_of
                  1700000000000
                  (Page.onFileRemove 1
                     (Page.onFileChange 1 [small_png]
                        (page_start (form_with_location "Kumasi") picked_point)))
                  _ eq_refl eq_refl)).
Defined.

Lemma marker_and_coordinates_witness :
  let st := page_start (form_with_location "Kumasi") equator_point in
  RealEstateMap.selectedMarker equator_point = false
  /\ Payload.lng
       (Page.propertyData geocode_one number_of 1700000000000 st
          Page.placeholders)
     = 9.5%float.
Proof.
  cbv zeta.
  destruct (proj2 (marker_and_coordinates upload_down geocode_one number_of
                     1700000000000
                     (page_start (form_with_location "Kumasi") equator_point)
                     _ eq_refl) eq_refl) as (Hmarker & _ & Hlng).
  split; [exact Hmarker | exact Hlng].
Defined.

Lemma point_then_submit_witness :
  let st := page_start (form_with_location "Kumasi") Page.LatLng.origin in
  Payload.location
    (Page.propertyData geocode_one number_of 1700000000000
       (Page.handleMapClick reverse_named 5.55%float (-0.20)%float st)
       Page.placeholders)
  = "Osu, Accra"
  /\ Payload.location
       (Page.propertyData geocode_one number_of 1700000000000
          (Page.getCurrentLocation (Page.Position 5.55%float (-0.20)%float)
             reverse_unnamed st)
          Page.placeholders)
     = "Current Location".
Proof.
  cbv zeta. split.
  - exact (proj1 (proj1 (point_then_submit upload_down geocode_one number_of
                           1700000000000 reverse_named 5.55%float (-0.20)%float
                           (Some "Osu, Accra")
                           (page_start (form_with_location "Kumasi")
                              Page.LatLng.origin)
                           _ eq_refl) eq_refl)).
  - exact (proj1 (proj2 (point_then_submit upload_down geocode_one number_of
                           1700000000000 reverse_unnamed 5.55%float (-0.20)%float
                           None
                           (page_start (form_with_location "Kumasi")
                              Page.LatLng.origin)
                           _ eq_refl) eq_refl)).
Defined.

Lemma suggestion_then_submit_witness :
  let st := Page.handleMapClick reverse_named 0%float 0%float
              (page_start (form_with_location "Kum") Page.LatLng.origin) in
  Page.locationName st = "Osu, Accra"
  /\ Payload.location
       (Page.propertyData geocode_one number_of 1700000000000
          (fst (Page.selectLocation "Kumasi, Ashanti" st)) Page.placeholders)
     = "Kumasi, Ashanti".
Proof.
  cbv zeta. split; [reflexivity|].
  exact (proj1 (suggestion_then_submit upload_down geocode_one number_of
                  1700000000000 "Kumasi, Ashanti"
                  (Page.handleMapClick reverse_named 0%float 0%float
                     (page_start (form_with_location "Kum") Page.LatLng.origin))
                  _ eq_refl)).
Defined.

(** ** A create request that the route rejects *)

Section Rejected.

Variable fetchUpload : Upload.File -> JS.Outcome Upload.Response.
Variable fetchGeocode : string -> JS.Outcome (list Page.GeoEntry.t).
Variable fetchProperties : JS.Outcome (list Listing.t).
Variable NumberOfString : string -> float.
Variable now : Z.

(** X25: when the connection to the database is made and the composed
    payload fails the schema or the insert fails, the create route rejects,
    and the handler of the page ends with one alert that begins [Error:
    Failed to create property:], the form, the selected point and the
    listings left as they were, the refresh not consulted. *)
Theorem rejected_create_keeps_form (e : Properties.Env) (srv : Properties.State)
    (st : Page.State) (data : Payload.t float) (c : unit) :
  Page.composed fetchUpload fetchGeocode NumberOfString now st = JS.Ok data ->
  fst (Db.dbConnect (Properties.db e) (Properties.cached srv)) = JS.Ok c ->
  Property.validate (Properties.fresh e) (Payload.toJSON data) = None
  \/ Properties.storeOk e = false ->
  exists msg,
    JS.startsWith "Error: Failed to create property: " msg = true
    /\ Page.handleSubmit fetchUpload fetchGeocode (Page.fetchCreate_of e srv)
         fetchProperties NumberOfString now st
       = {| Page.form := Page.form st;
            Page.selectedLocation := Page.selectedLocation st;
            Page.locationName := Page.locationName st;
            Page.useCurrentLocation := Page.useCurrentLocation st;
            Page.properties := Page.properties st;
            Page.showModal := Page.showModal st;
            Page.submitting := false;
            Page.uploadProgress := 0;
            Page.alerts := (Page.alerts st ++ [msg])%list |}.
Proof.
  intros Hdata Hconn Hfail.
  assert (Hcreate : exists m,
    fst (Property.create (Properties.fresh e) (Properties.storeOk e)
           (Payload.toJSON data) (Properties.collection srv)) = JS.Throw m).
  { unfold Property.create.
    destruct (Property.validate _ _) as [doc|]; [|eauto].
    destruct Hfail as [Hv | ->]; [discriminate Hv | eauto]. }
  destruct Hcreate as [m Hcreate].
  pose proof (POST_create_failure_rejects e srv _ c m Hconn Hcreate) as Hpost.
  eexists. split; [|].
  2: { unfold Page.handleSubmit, Page.submit, Page.fetchCreate_of.
       rewrite Hdata, Hpost. reflexivity. }
  reflexivity.
Qed.

End Rejected.

Lemma rejected_create_keeps_form_witness :
  exists msg,
    Page.alerts
      (Page.handleSubmit upload_down geocode_down
         (Page.fetchCreate_of (server_env db_up) server_start) (JS.Ok [])
         number_of 1700000000000
         (page_start form_without_location Page.LatLng.origin))
    = [msg].
Proof.
  destruct (rejected_create_keeps_form upload_down geocode_down (JS.Ok [])
              number_of 1700000000000 (server_env db_up) server_start
              (page_start form_without_location Page.LatLng.origin)
              (Page.propertyData geocode_down number_of 1700000000000
                 (page_start form_without_location Page.LatLng.origin)
                 Page.placeholders)
              tt eq_refl eq_refl (or_introl eq_refl)) as (msg & _ & Hstate).
  exists msg. now rewrite Hstate.
Defined.

(** ** The round trip of an accepted file *)

Section AcceptedFile.
Context `{Zlib}.

(** X26: for every file that the upload route accepts, whatever its length
    up to 5 MB, the retrieval of the returned identifier answers 200 and
    streams the bytes as they were uploaded, gzip in between or not; and
    when the file is at most 1 MiB, the [Content-Type] is the type the file
    declared. *)
Theorem accepted_file_round_trip (e : Upload.Env) (f : Upload.File)
    (bk : GridFS.Bucket) (fileId : string) :
  fst (Upload.POST e (Upload.Form (Some f)) bk) = Upload.FileId fileId ->
  ObjectId_wf (Upload.fresh e) ->
  let res := Image.GET true ("/api/image/" +:+ fileId)
               (snd (Upload.POST e (Upload.Form (Some f)) bk)) in
  Image.status res = 200
  /\ Image.body res = Image.Streamed (GridFS.Bytes (Upload.content f))
  /\ (Upload.size f <= 1048576 ->
      Image.header "Content-Type" res = Some (JS.Str (Upload.type f))).
Proof.
  intros Hres Hid. cbv zeta.
  assert (Haccepted :
    Upload.size f <= Upload.maxSize
    /\ JS.startsWith "image/" (Upload.type f) = true
    /\ Upload.race e = Upload.Finish
    /\ fileId = ObjectId.toString (Upload.fresh e)).
  { revert Hres. unfold Upload.POST.
    destruct (Upload.size f >? Upload.maxSize) eqn:Hsize; [discriminate|].
    destruct (JS.startsWith "image/" (Upload.type f)); cbn [negb];
      [|discriminate].
    destruct (Upload.race e); try discriminate.
    cbn [fst]. intros [= <-]. repeat split. lia. }
  destruct Haccepted as (Hsize & Htype & Hrace & ->).
  rewrite upload_then_GET by assumption.
  split; [reflexivity|]. split; [reflexivity|].
  intros Hsmall. unfold Upload.shouldCompress.
  replace (Upload.size f >? 1024 * 1024) with false by lia. reflexivity.
Qed.

End AcceptedFile.

Lemma accepted_file_round_trip_witness :
  Image.body
    (Image.GET true "/api/image/0000000000000000000000ff"
       (snd (Upload.POST upload_env (Upload.Form (Some large_png)) ∅)))
  = Image.Streamed (GridFS.Bytes (Upload.content large_png)).
Proof.
  assert (Hres : fst (Upload.POST upload_env (Upload.Form (Some large_png)) ∅)
                 = Upload.FileId "0000000000000000000000ff").
  { rewrite POST_accepted; [reflexivity | | reflexivity | reflexivity].
    rewrite size_large_png. unfold Upload.maxSize. lia. }
  refine (proj1 (proj2 (accepted_file_round_trip upload_env large_png ∅
                          "0000000000000000000000ff" Hres _))).
  unfold ObjectId_wf. cbn. lia.
Defined.
